(** * LHU-FaceID: the matching engine and the embedding aggregator

    Shallow embedding of [face_utils.FaceMatcher] and
    [multi_image_trainer.MultiImageTrainer].

    Numbers.  The Python code computes on numpy floats.  Rounding is
    idealised here: a finite float is a real number, and the three special
    values that steer the control flow of the code (NaN and the two
    infinities, which numpy produces on a division by zero without raising)
    are kept, with their IEEE comparison rules (every comparison with NaN is
    false).  Signed zeros are not distinguished.  The theorems on this
    model use comparisons, control flow, NaN propagation and the shape of a
    computation; where rounding decides a statement, the computation is
    repeated on machine doubles ([TenthCheck], [Binary64]).

    Exceptions.  Python calls return in the monad [py]: a value, or a raised
    exception.  [try_except] is the blanket [try: ... except Exception]. *)

From Stdlib Require Import String.
From Stdlib Require Import Reals Lra Lia List Bool Arith PeanoNat.
From Stdlib Require Import Permutation Sorted.
From Stdlib Require PrimFloat Uint63 ZArith.
From Stdlib Require Import ZArith.
Import ListNotations.

Set Implicit Arguments.

(* ================================================================== *)
(** ** numpy scalars *)
(* ================================================================== *)

Module Np.

Inductive npfloat : Type :=
| Fin (x : R)
| PInf
| NInf
| NaN.

Local Open Scope R_scope.

Definition Rltb (x y : R) : bool := if Rlt_dec x y then true else false.
Definition Rleb (x y : R) : bool := if Rle_dec x y then true else false.
Definition Reqb (x y : R) : bool := if Req_dec_T x y then true else false.

Definition isnan (a : npfloat) : bool :=
  match a with NaN => true | _ => false end.

Definition isfinite (a : npfloat) : bool :=
  match a with Fin _ => true | _ => false end.

Definition fadd (a b : npfloat) : npfloat :=
  match a, b with
  | NaN, _ | _, NaN => NaN
  | Fin x, Fin y => Fin (x + y)
  | PInf, NInf | NInf, PInf => NaN
  | PInf, _ | _, PInf => PInf
  | NInf, _ | _, NInf => NInf
  end.

(** An infinity (positive when [pos]) times the finite [x]. *)
Definition inf_times (pos : bool) (x : R) : npfloat :=
  if Reqb x 0 then NaN
  else if Rltb 0 x then (if pos then PInf else NInf)
       else (if pos then NInf else PInf).

Definition fmul (a b : npfloat) : npfloat :=
  match a, b with
  | NaN, _ | _, NaN => NaN
  | Fin x, Fin y => Fin (x * y)
  | PInf, Fin y | Fin y, PInf => inf_times true y
  | NInf, Fin y | Fin y, NInf => inf_times false y
  | PInf, PInf | NInf, NInf => PInf
  | PInf, NInf | NInf, PInf => NInf
  end.

(** numpy division: [x / 0] is NaN for [x = 0] and an infinity otherwise;
    it warns and does not raise. *)
Definition fdiv (a b : npfloat) : npfloat :=
  match a, b with
  | NaN, _ | _, NaN => NaN
  | Fin x, Fin y =>
      if Reqb y 0
      then (if Reqb x 0 then NaN else if Rltb 0 x then PInf else NInf)
      else Fin (x / y)
  | Fin _, PInf | Fin _, NInf => Fin 0
  | PInf, Fin y => if Rltb y 0 then NInf else PInf
  | NInf, Fin y => if Rltb y 0 then PInf else NInf
  | PInf, PInf | PInf, NInf | NInf, PInf | NInf, NInf => NaN
  end.

Definition fsqrt (a : npfloat) : npfloat :=
  match a with
  | Fin x => if Rltb x 0 then NaN else Fin (sqrt x)
  | PInf => PInf
  | NInf | NaN => NaN
  end.

(** [a < b] and [a <= b]; false as soon as one side is NaN. *)
Definition fltb (a b : npfloat) : bool :=
  match a, b with
  | NaN, _ | _, NaN => false
  | Fin x, Fin y => Rltb x y
  | NInf, NInf => false
  | NInf, _ => true
  | _, NInf => false
  | PInf, _ => false
  | Fin _, PInf => true
  end.

Definition fleb (a b : npfloat) : bool :=
  match a, b with
  | NaN, _ | _, NaN => false
  | Fin x, Fin y => Rleb x y
  | NInf, _ => true
  | _, NInf => false
  | _, PInf => true
  | PInf, Fin _ => false
  end.

(** Python's [a > b] and [a >= b]. *)
Definition fgt (a b : npfloat) : bool := fltb b a.
Definition fge (a b : npfloat) : bool := fleb b a.

(** The order of the real line on the values that have one: the
    propositional reading of [>=] used to state the tier rule. *)
Definition ge_prop (a b : npfloat) : Prop :=
  match a, b with
  | NaN, _ | _, NaN => False
  | Fin x, Fin y => y <= x
  | _, NInf => True
  | NInf, _ => False
  | PInf, _ => True
  | Fin _, PInf => False
  end.

(* ------------------------------------------------------------------ *)
(** ** Exceptions *)

Inductive exn : Type := PyExc (name : string).

Definition ValueError : exn := PyExc "ValueError".

Inductive py (A : Type) : Type :=
| Return (a : A)
| Raise (e : exn).

Arguments Raise {A} e.

Definition bind {A B : Type} (c : py A) (k : A -> py B) : py B :=
  match c with
  | Return a => k a
  | Raise e => Raise e
  end.

Definition try_except {A : Type} (body : py A) (handler : exn -> py A) : py A :=
  match body with
  | Return a => Return a
  | Raise e => handler e
  end.

Definition returns {A : Type} (c : py A) : Prop := exists a, c = Return a.
Definition raises {A : Type} (c : py A) : Prop := exists e, c = Raise e.

(* ------------------------------------------------------------------ *)
(** ** One-dimensional arrays *)

Definition vec : Type := list npfloat.

Definition fsum (l : list npfloat) : npfloat := fold_left fadd l (Fin 0).

(** [np.dot] on two 1-D arrays: raises [ValueError] when the lengths
    differ. *)
Definition vdot (a b : vec) : npfloat :=
  fsum (map (fun p => fmul (fst p) (snd p)) (combine a b)).

Definition np_dot (a b : vec) : py npfloat :=
  if (length a =? length b)%nat then Return (vdot a b) else Raise ValueError.

(** [np.linalg.norm] of a 1-D array: [sqrt(dot(x, x))]. *)
Definition np_linalg_norm (v : vec) : npfloat := fsqrt (vdot v v).

(** [v / s] with a scalar [s]. *)
Definition vdiv (v : vec) (s : npfloat) : vec := map (fun x => fdiv x s) v.

(** [v / np.linalg.norm(v)] *)
Definition l2_normalize (v : vec) : vec := vdiv v (np_linalg_norm v).

End Np.

Import Np.

Declare Scope py_scope.
Delimit Scope py_scope with py.
Notation "x <- c ;; k" := (bind c (fun x => k))
  (at level 61, c at next level, right associativity) : py_scope.
Local Open Scope py_scope.

(* ================================================================== *)
(** ** face_utils.FaceMatcher *)
(* ================================================================== *)

Module FaceMatcher.

(** [self]: the two thresholds read from the configuration. *)
Record t : Type := mk {
  threshold_match : npfloat;
  threshold_uncertain : npfloat
}.

Inductive match_status : Type := MATCH | UNCERTAIN | NO_MATCH.

Definition status_eqb (a b : match_status) : bool :=
  match a, b with
  | MATCH, MATCH | UNCERTAIN, UNCERTAIN | NO_MATCH, NO_MATCH => true
  | _, _ => false
  end.

(** The body of the [try] block of [cosine_similarity]. *)
Definition cosine_similarity_body (embedding1 embedding2 : vec) : py npfloat :=
  let embedding1 := vdiv embedding1 (np_linalg_norm embedding1) in
  let embedding2 := vdiv embedding2 (np_linalg_norm embedding2) in
  similarity <- np_dot embedding1 embedding2 ;;
  Return similarity.

Definition cosine_similarity (self : t) (embedding1 embedding2 : vec) : py npfloat :=
  try_except (cosine_similarity_body embedding1 embedding2)
             (fun _ => Return (Fin 0)).

Definition match_ (self : t) (query_embedding reference_embedding : vec)
  : py (match_status * npfloat) :=
  similarity <- cosine_similarity self query_embedding reference_embedding ;;
  let status :=
    if fge similarity (threshold_match self) then MATCH
    else if fge similarity (threshold_uncertain self) then UNCERTAIN
    else NO_MATCH in
  Return (status, similarity).

(** A row of the gallery, and the dictionary built for the best match. *)
Record student : Type := mk_student {
  student_id : string;
  name : string;
  class : string;
  embedding : vec
}.

Record best_match_dict : Type := mk_best {
  bm_student_id : string;
  bm_name : string;
  bm_class : string;
  bm_similarity : npfloat;
  bm_status : match_status
}.

(** The local variables of [find_best_match]. *)
Record scan_state : Type := mk_scan {
  best_match : option best_match_dict;
  best_score : npfloat;
  best_status : match_status
}.

Definition scan_init : scan_state :=
  mk_scan None (Fin (-1)) NO_MATCH.

(** One iteration of the [for student in students] loop. *)
Definition scan_step (self : t) (query_embedding : vec)
           (st : scan_state) (s : student) : py scan_state :=
  r <- match_ self query_embedding (embedding s) ;;
  let '(status, score) := r in
  if fgt score (best_score st)
  then Return (mk_scan (Some (mk_best (student_id s) (name s) (class s) score status))
                       score status)
  else Return st.

Fixpoint scan (self : t) (query_embedding : vec)
         (students : list student) (st : scan_state) : py scan_state :=
  match students with
  | [] => Return st
  | s :: rest =>
      st' <- scan_step self query_embedding st s ;;
      scan self query_embedding rest st'
  end.

Definition find_best_match (self : t) (query_embedding : vec)
           (students : list student) : py (option best_match_dict) :=
  st <- scan self query_embedding students scan_init ;;
  Return (best_match st).

(** The score [cosine_similarity] hands to its caller (it never raises,
    see [cosine_similarity_returns]). *)
Definition similarity_of (self : t) (a b : vec) : npfloat :=
  match cosine_similarity self a b with
  | Return s => s
  | Raise _ => NaN
  end.

(** The [if]/[elif]/[else] of [match] as a function of the score. *)
Definition status_of (self : t) (s : npfloat) : match_status :=
  if fge s (threshold_match self) then MATCH
  else if fge s (threshold_uncertain self) then UNCERTAIN
  else NO_MATCH.

(** The score of a candidate against the query, and the dictionary
    [find_best_match] builds for it. *)
Definition score_of (self : t) (query_embedding : vec) (c : student) : npfloat :=
  similarity_of self query_embedding (embedding c).

Definition verdict_of (self : t) (query_embedding : vec) (c : student)
  : best_match_dict :=
  mk_best (student_id c) (name c) (class c)
          (score_of self query_embedding c)
          (status_of self (score_of self query_embedding c)).

End FaceMatcher.

(* ================================================================== *)
(** ** Two-dimensional arrays *)
(* ================================================================== *)

Module Np2.

(** An array of shape [(length rows, ncols)]; the column count is kept
    apart because numpy keeps it when there are no rows. *)
Record array2 : Type := mk_array {
  ncols : nat;
  rows : list vec
}.

(** [np.array(embeddings)] on a list of 1-D arrays: a ragged list raises
    [ValueError] (inhomogeneous shape; numpy 1.24 and later). *)
Definition np_array (embeddings : list vec) : py array2 :=
  match embeddings with
  | [] => Return (mk_array 0 [])
  | e :: rest =>
      if forallb (fun r => length r =? length e) rest
      then Return (mk_array (length e) embeddings)
      else Raise ValueError
  end.

Definition column (j : nat) (a : array2) : list npfloat :=
  map (fun r => nth j r NaN) (rows a).

(** [np.mean] of a 1-D array: the sum over the count; NaN (0/0, with a
    warning) on an empty array. *)
Definition fmean (l : list npfloat) : npfloat :=
  fdiv (fsum l) (Fin (INR (length l))).

Definition np_mean_axis0 (a : array2) : vec :=
  map (fun j => fmean (column j a)) (seq 0 (ncols a)).

(** The order [np.sort] uses: [<], with every NaN after the numbers. *)
Definition np_lt (a b : npfloat) : bool :=
  fltb a b || (isnan b && negb (isnan a)).

(** [a] may stand before [b] in a sorted array: [b] is not below [a]. *)
Definition np_ordered (a b : npfloat) : Prop := np_lt b a = false.

Fixpoint np_insert (x : npfloat) (l : list npfloat) : list npfloat :=
  match l with
  | [] => [x]
  | y :: t => if np_lt x y then x :: y :: t else y :: np_insert x t
  end.

Fixpoint np_sort_1d (l : list npfloat) : list npfloat :=
  match l with
  | [] => []
  | x :: t => np_insert x (np_sort_1d t)
  end.

(** [np.sort(a, axis=0)]: every column sorted on its own. *)
Definition np_sort_axis0 (a : array2) : array2 :=
  mk_array (ncols a)
    (map (fun i => map (fun j => nth i (np_sort_1d (column j a)) NaN)
                       (seq 0 (ncols a)))
         (seq 0 (length (rows a)))).

(** The Python slice [l[start:-k]] for [start >= 0]; [-0] is [0]. *)
Definition py_slice_neg {A : Type} (start k : nat) (l : list A) : list A :=
  let stop := if k =? 0 then 0 else length l - k in
  firstn (stop - start) (skipn start l).

(** [a[start:-k, :]] *)
Definition slice_rows (start k : nat) (a : array2) : array2 :=
  mk_array (ncols a) (py_slice_neg start k (rows a)).

(** [np.median] of a 1-D array: NaN as soon as one entry is NaN, otherwise
    the middle of the sorted values (the mean of the two middle ones for an
    even count). *)
Definition fmedian (l : list npfloat) : npfloat :=
  let n := length l in
  if existsb isnan l then NaN
  else
    let s := np_sort_1d l in
    if Nat.even n
    then fmean [nth (n / 2 - 1) s NaN; nth (n / 2) s NaN]
    else nth (n / 2) s NaN.

Definition np_median_axis0 (a : array2) : vec :=
  map (fun j => fmedian (column j a)) (seq 0 (ncols a)).

End Np2.

Import Np2.

(* ================================================================== *)
(** ** multi_image_trainer.MultiImageTrainer *)
(* ================================================================== *)

Module MultiImageTrainer.

(** [int(n * 0.1)] for a list length [n]: the double nearest to one tenth
    lies just above it, and the product truncates to the integer quotient
    (see [TenthCheck] below for the floats themselves). *)
Definition int_tenth (n : nat) : nat := n / 10.

(** [n_remove = max(1, int(len(embeddings) * 0.1))] *)
Definition n_remove (n : nat) : nat := Nat.max 1 (int_tenth n).

Definition compute_average_embedding (embeddings : list vec) : py (option vec) :=
  try_except
    (if length embeddings =? 0 then Return None
     else
       embeddings_array <- np_array embeddings ;;
       let avg_embedding := np_mean_axis0 embeddings_array in
       let avg_embedding := vdiv avg_embedding (np_linalg_norm avg_embedding) in
       Return (Some avg_embedding))
    (fun _ => Return None).

Definition default_method : string := "median".

Definition compute_robust_embedding (embeddings : list vec) (method : string)
  : py (option vec) :=
  try_except
    (if length embeddings =? 0 then Return None
     else
       embeddings_array <- np_array embeddings ;;
       let robust_embedding :=
         if String.eqb method "median" then
           np_median_axis0 embeddings_array
         else if String.eqb method "trimmed_mean" then
           let n_remove := n_remove (length embeddings) in
           let sorted_emb := np_sort_axis0 embeddings_array in
           let trimmed := slice_rows n_remove n_remove sorted_emb in
           np_mean_axis0 trimmed
         else
           np_mean_axis0 embeddings_array in
       let robust_embedding :=
         vdiv robust_embedding (np_linalg_norm robust_embedding) in
       Return (Some robust_embedding))
    (fun _ => Return None).

Definition default_threshold : npfloat := Fin 0.3%R.

(** The [for emb in embeddings] loop of [filter_outliers], appending to
    [similarities]. *)
Fixpoint similarities_loop (embeddings : list vec) (centroid : vec)
         (similarities : list npfloat) : py (list npfloat) :=
  match embeddings with
  | [] => Return similarities
  | emb :: rest =>
      let norm_emb := vdiv emb (np_linalg_norm emb) in
      sim <- np_dot norm_emb centroid ;;
      similarities_loop rest centroid (similarities ++ [sim])
  end.

Definition filter_outliers (embeddings : list vec) (threshold : npfloat)
  : py (list vec) :=
  try_except
    (if length embeddings <=? 2 then Return embeddings
     else
       a <- np_array embeddings ;;
       let centroid := np_mean_axis0 a in
       let centroid := vdiv centroid (np_linalg_norm centroid) in
       similarities <- similarities_loop embeddings centroid [] ;;
       let filtered :=
         map fst (filter (fun p => fge (snd p) threshold)
                         (combine embeddings similarities)) in
       if length filtered =? 0 then Return embeddings
       else Return filtered)
    (fun _ => Return embeddings).

End MultiImageTrainer.

(** The float product behind [int_tenth], on machine floats. *)
Module TenthCheck.

Import PrimFloat.

Definition float_of_nat (n : nat) : PrimFloat.float :=
  PrimFloat.of_uint63 (Uint63.of_Z (Z.of_nat n)).

#[warnings="-inexact-float"]
Definition one_tenth : PrimFloat.float := 0.1%float.

(** [int(x) = k] for a non-negative [x]: [k <= x < k + 1]. *)
Definition truncates_to (x : PrimFloat.float) (k : nat) : bool :=
  PrimFloat.leb (float_of_nat k) x && PrimFloat.ltb x (float_of_nat (S k)).

Definition agrees_upto (bound : nat) : bool :=
  forallb (fun n => truncates_to (PrimFloat.mul (float_of_nat n) one_tenth)
                                 (MultiImageTrainer.int_tenth n))
          (seq 0 bound).

End TenthCheck.

(* ================================================================== *)
(** ** compute_average_embedding on machine doubles *)
(* ================================================================== *)

(** [compute_average_embedding] once more, statement by statement as in
    [MultiImageTrainer], with the binary64 arithmetic of [PrimFloat] in the
    place of the arithmetic of [npfloat]: every addition and division
    rounds. *)
Module Binary64.

Import PrimFloat.

Definition vec : Type := list PrimFloat.float.

Definition fsum (l : list PrimFloat.float) : PrimFloat.float :=
  fold_left PrimFloat.add l PrimFloat.zero.

Definition vdot (a b : vec) : PrimFloat.float :=
  fsum (map (fun p => PrimFloat.mul (fst p) (snd p)) (combine a b)).

(** [np.linalg.norm] of a 1-D array: [sqrt(dot(x, x))]. *)
Definition np_linalg_norm (v : vec) : PrimFloat.float :=
  PrimFloat.sqrt (vdot v v).

Definition vdiv (v : vec) (s : PrimFloat.float) : vec :=
  map (fun x => PrimFloat.div x s) v.

Definition l2_normalize (v : vec) : vec := vdiv v (np_linalg_norm v).

Record array2 : Type := mk_array {
  ncols : nat;
  rows : list vec
}.

Definition np_array (embeddings : list vec) : py array2 :=
  match embeddings with
  | [] => Return (mk_array 0 [])
  | e :: rest =>
      if forallb (fun r => (length r =? length e)%nat) rest
      then Return (mk_array (length e) embeddings)
      else Raise ValueError
  end.

Definition column (j : nat) (a : array2) : list PrimFloat.float :=
  map (fun r => nth j r PrimFloat.nan) (rows a).

Definition fmean (l : list PrimFloat.float) : PrimFloat.float :=
  PrimFloat.div (fsum l) (TenthCheck.float_of_nat (length l)).

Definition np_mean_axis0 (a : array2) : vec :=
  map (fun j => fmean (column j a)) (seq 0 (ncols a)).

Definition compute_average_embedding (embeddings : list vec) : py (option vec) :=
  try_except
    (if (length embeddings =? 0)%nat then Return None
     else
       embeddings_array <- np_array embeddings ;;
       let avg_embedding := np_mean_axis0 embeddings_array in
       let avg_embedding := vdiv avg_embedding (np_linalg_norm avg_embedding) in
       Return (Some avg_embedding))
    (fun _ => Return None).





End Binary64.

(* ================================================================== *)
(** ** Sums and columns over the reals *)
(* ================================================================== *)

(** The sum of a list of real numbers and a column of a table of real
    numbers, to which the sums and columns of finite arrays reduce. *)
Module RealSpec.

Local Open Scope R_scope.

Definition Rsum (l : list R) : R := fold_left Rplus l 0.

Definition column_R (j : nat) (rs : list (list R)) : list R :=
  map (fun r => nth j r 0) rs.

End RealSpec.

Import RealSpec.

(* ================================================================== *)
(** ** The aggregation rules in the words of the specification *)
(* ================================================================== *)

Module AggregatorSpec.

(** The centroid: the L2-normalized mean of the (unnormalized) inputs. *)
Definition centroid_of (D : nat) (embeddings : list vec) : vec :=
  l2_normalize (np_mean_axis0 (mk_array D embeddings)).

(** The cosine similarity of the L2-normalized input to the centroid. *)
Definition similarity_to (centroid e : vec) : npfloat :=
  vdot (l2_normalize e) centroid.

(** The inputs whose similarity to the centroid is at least the threshold. *)
Definition kept_by (D : nat) (embeddings : list vec) (threshold : npfloat)
  : list vec :=
  filter (fun e => fge (similarity_to (centroid_of D embeddings) e) threshold)
         embeddings.

(** Per dimension: sort the values, drop the [k] lowest and the [k] highest,
    average the remainder; then normalize. *)
Definition trimmed_mean_per_dimension (k D : nat) (embeddings : list vec) : vec :=
  l2_normalize
    (map (fun j =>
            fmean (firstn (length embeddings - 2 * k)
                          (skipn k (np_sort_1d (map (fun e => nth j e NaN)
                                                    embeddings)))))
         (seq 0 D)).

(** The element-wise median, normalized. *)
Definition median_per_dimension (D : nat) (embeddings : list vec) : vec :=
  l2_normalize
    (map (fun j => fmedian (map (fun e => nth j e NaN) embeddings)) (seq 0 D)).

(** The ceiling of a tenth of [n]. *)
Definition ceil_tenth (n : nat) : nat := (n + 9) / 10.

End AggregatorSpec.

Import AggregatorSpec.

(* ================================================================== *)
(** ** Inputs of the scenarios *)
(* ================================================================== *)

(** Vectors of the scenarios: against [e1], the cosine of [v_020] is 0.2,
    of [v_050] 0.5, of [v_065] 0.65 and of [v_070], [v_070'] 0.7. *)
Definition e1 : vec := [Fin 1; Fin 0; Fin 0; Fin 0; Fin 0].
Definition v_020 : vec := [Fin 1; Fin 4; Fin 2; Fin 2; Fin 0].
Definition v_050 : vec := [Fin 1; Fin 1; Fin 1; Fin 1; Fin 0].
Definition v_065 : vec := [Fin 13; Fin 15; Fin 2; Fin 1; Fin 1].
Definition v_070 : vec := [Fin 7; Fin 7; Fin 1; Fin 1; Fin 0].
Definition v_070' : vec := [Fin 7; Fin 1; Fin 7; Fin 1; Fin 0].
Definition v_antipodal : vec := [Fin (-1)%R; Fin 0; Fin 0; Fin 0; Fin 0].

Definition zero5 : vec := [Fin 0; Fin 0; Fin 0; Fin 0; Fin 0].

(** Thresholds match = 0.6, uncertain = 0.4. *)
Definition scenario_matcher : FaceMatcher.t :=
  FaceMatcher.mk (Fin 0.6%R) (Fin 0.4%R).

Definition student_050 : FaceMatcher.student :=
  FaceMatcher.mk_student "s1" "An" "K50" v_050.
Definition student_070 : FaceMatcher.student :=
  FaceMatcher.mk_student "s2" "Binh" "K50" v_070.
Definition student_070' : FaceMatcher.student :=
  FaceMatcher.mk_student "s3" "Chi" "K50" v_070'.
Definition student_020 : FaceMatcher.student :=
  FaceMatcher.mk_student "s4" "Dung" "K51" v_020.
Definition student_antipodal : FaceMatcher.student :=
  FaceMatcher.mk_student "s5" "Giang" "K51" v_antipodal.

(** Scores 0.50, 0.70, 0.70 against [e1], in scan order. *)
Definition gallery_tie : list FaceMatcher.student :=
  [student_050; student_070; student_070'].

(** Eleven one-dimensional samples, in ascending order. *)
Definition samples11_values : list R :=
  [-100; -99; 1; 2; 3; 4; 5; 6; 7; 8; 9]%R.

Definition samples11 : list vec := map (fun r => [Fin r]) samples11_values.

(* ================================================================== *)
(** ** multi_image_trainer.MultiImageTrainer.get_best_embedding_set *)
(* ================================================================== *)

Module Np3.

Local Open Scope R_scope.

Definition fneg (a : npfloat) : npfloat :=
  match a with
  | Fin x => Fin (- x)
  | PInf => NInf
  | NInf => PInf
  | NaN => NaN
  end.

Definition fsub (a b : npfloat) : npfloat := fadd a (fneg b).

(** Element-wise difference of two arrays of one length. *)
Definition vsub (a b : vec) : vec :=
  map (fun p => fsub (fst p) (snd p)) (combine a b).

Definition IndexError : exn := PyExc "IndexError".

(** [a - b] on 1-D arrays: equal lengths, or one side of length 1 that is
    broadcast; any other pair of shapes raises [ValueError]. *)
Definition np_sub (a b : vec) : py vec :=
  if (length a =? length b)%nat then Return (vsub a b)
  else if (length a =? 1)%nat then
         Return (map (fun y => fsub (nth 0 a NaN) y) b)
  else if (length b =? 1)%nat then
         Return (map (fun x => fsub x (nth 0 b NaN)) a)
  else Raise ValueError.

(** [np.argsort]: the positions of the entries in ascending order, NaN
    last.  numpy does not fix the order of equal entries; here the earlier
    position comes first. *)
Fixpoint arg_insert (p : nat * npfloat) (l : list (nat * npfloat))
  : list (nat * npfloat) :=
  match l with
  | [] => [p]
  | q :: t => if np_lt (snd q) (snd p) then q :: arg_insert p t
              else p :: q :: t
  end.

Fixpoint arg_sort (l : list (nat * npfloat)) : list (nat * npfloat) :=
  match l with
  | [] => []
  | p :: t => arg_insert p (arg_sort t)
  end.

Definition np_argsort (d : list npfloat) : list nat :=
  map fst (arg_sort (combine (seq 0 (length d)) d)).

(** The Python slice [l[:k]]; a negative [k] counts from the end. *)
Definition py_slice_to {A : Type} (k : Z) (l : list A) : list A :=
  if (k <? 0)%Z
  then firstn (Z.to_nat (Z.of_nat (length l) + k)) l
  else firstn (Z.to_nat k) l.

(** [l[i]] for an index [i >= 0]. *)
Definition py_index {A : Type} (l : list A) (i : nat) : py A :=
  match nth_error l i with
  | Some x => Return x
  | None => Raise IndexError
  end.

End Np3.

Import Np3.

Module BestEmbeddingSet.

Definition default_n_best : Z := 5%Z.

(** The [for emb in embeddings] loop, appending to [distances]. *)
Fixpoint distances_loop (embeddings : list vec) (centroid : vec)
         (distances : list npfloat) : py (list npfloat) :=
  match embeddings with
  | [] => Return distances
  | emb :: rest =>
      let norm_emb := vdiv emb (np_linalg_norm emb) in
      diff <- np_sub norm_emb centroid ;;
      let dist := np_linalg_norm diff in
      distances_loop rest centroid (distances ++ [dist])
  end.

(** [[embeddings[i] for i in sorted_indices]] *)
Fixpoint gather (embeddings : list vec) (sorted_indices : list nat)
  : py (list vec) :=
  match sorted_indices with
  | [] => Return []
  | i :: rest =>
      e <- py_index embeddings i ;;
      r <- gather embeddings rest ;;
      Return (e :: r)
  end.

Definition get_best_embedding_set (embeddings : list vec) (n_best : Z)
  : py (list vec) :=
  try_except
    (if (Z.of_nat (length embeddings) <=? n_best)%Z then Return embeddings
     else
       embeddings_array <- np_array embeddings ;;
       let centroid := np_mean_axis0 embeddings_array in
       let centroid := vdiv centroid (np_linalg_norm centroid) in
       distances <- distances_loop embeddings centroid [] ;;
       let sorted_indices := py_slice_to n_best (np_argsort distances) in
       best_embeddings <- gather embeddings sorted_indices ;;
       Return best_embeddings)
    (fun _ => Return embeddings).

(** The Euclidean distance of the L2-normalized input to the centroid. *)
Definition distance_to (centroid e : vec) : npfloat :=
  np_linalg_norm (vsub (l2_normalize e) centroid).

(** Pairs of a position and its key, ordered by key. *)
Definition key_ordered (p q : nat * npfloat) : Prop :=
  np_ordered (snd p) (snd q).

End BestEmbeddingSet.

Import BestEmbeddingSet.

(* ================================================================== *)
(** ** main: the aggregation steps of the two enrollment handlers *)
(* ================================================================== *)

Module Enrollment.

Definition HTTPException_400 : exn := PyExc "HTTPException 400".

(** [register_face], from the check of the extracted embeddings to the
    template handed to the database: no embedding is an HTTP 400; more than
    two are filtered; more than one (after filtering) are averaged, a single
    one is taken as it is. *)
Definition register_face_template (embeddings : list vec) : py (option vec) :=
  if (length embeddings =? 0)%nat then Raise HTTPException_400
  else
    embeddings <-
      (if (2 <? length embeddings)%nat
       then MultiImageTrainer.filter_outliers embeddings
                                              MultiImageTrainer.default_threshold
       else Return embeddings) ;;
    if (1 <? length embeddings)%nat
    then MultiImageTrainer.compute_average_embedding embeddings
    else e <- py_index embeddings 0 ;; Return (Some e).

(** [update_student_photo]: more than one embedding is filtered and then
    averaged; a single one is taken as it is. *)
Definition update_student_photo_template (embeddings : list vec)
  : py (option vec) :=
  if (length embeddings =? 0)%nat then Raise HTTPException_400
  else if (1 <? length embeddings)%nat
  then
    embeddings <- MultiImageTrainer.filter_outliers
                    embeddings MultiImageTrainer.default_threshold ;;
    MultiImageTrainer.compute_average_embedding embeddings
  else e <- py_index embeddings 0 ;; Return (Some e).

End Enrollment.

Import Enrollment.

(* ================================================================== *)
(** ** attendance_logger.AttendanceLogger.get_statistics *)
(* ================================================================== *)

Module AttendanceStats.

Local Open Scope R_scope.

Definition TypeError : exn := PyExc "TypeError".
Definition ZeroDivisionError : exn := PyExc "ZeroDivisionError".

(** The two keys [get_statistics] reads of a record of
    [get_today_attendance]; a NULL column is [None]. *)
Record attendance_record : Type := mk_record {
  rec_status : option string;
  rec_confidence : option npfloat
}.

(** The dictionary returned. *)
Record statistics : Type := mk_statistics {
  total_attempts : nat;
  successful : nat;
  uncertain : nat;
  failed : nat;
  success_rate : npfloat;
  average_confidence : npfloat
}.

(** [r['status'] == name] *)
Definition status_is (name : string) (r : attendance_record) : bool :=
  match rec_status r with
  | Some s => String.eqb s name
  | None => false
  end.

(** Python's [sum] over the confidences, from the start value: adding
    [None] raises [TypeError]. *)
Fixpoint py_sum (l : list (option npfloat)) (acc : npfloat) : py npfloat :=
  match l with
  | [] => Return acc
  | None :: _ => Raise TypeError
  | Some x :: t => py_sum t (fadd acc x)
  end.

(** Python's [a / b] on numbers: a zero divisor raises. *)
Definition py_truediv (a b : npfloat) : py npfloat :=
  match b with
  | Fin y => if Reqb y 0 then Raise ZeroDivisionError else Return (fdiv a b)
  | _ => Return (fdiv a b)
  end.

Definition zero_statistics : statistics :=
  mk_statistics 0 0 0 0 (Fin 0) (Fin 0).

Section Statistics.

(** The builtin [round(x, 2)].  It rounds the decimal expansion of the
    binary double it is given, which the real-number reading of the floats
    does not determine; it is left as a parameter. *)
Variable py_round2 : npfloat -> npfloat.

(** [today_records] is what [self.get_today_attendance()] returned; that
    method returns a list on every path. *)
Definition get_statistics (today_records : list attendance_record)
  : py statistics :=
  try_except
    (let total := length today_records in
     let successful := length (filter (status_is "success") today_records) in
     let uncertain := length (filter (status_is "uncertain") today_records) in
     let failed := length (filter (status_is "failed") today_records) in
     avg_confidence <-
       (match today_records with
        | [] => Return (Fin 0)
        | _ :: _ =>
            s <- py_sum (map rec_confidence today_records) (Fin 0) ;;
            py_truediv s (Fin (INR (length today_records)))
        end) ;;
     rate <-
       (if (0 <? total)%nat
        then q <- py_truediv (Fin (INR successful)) (Fin (INR total)) ;;
             Return (fmul q (Fin 100))
        else Return (Fin 0)) ;;
     Return (mk_statistics total successful uncertain failed rate
                           (py_round2 avg_confidence)))
    (fun _ => Return zero_statistics).

End Statistics.

End AttendanceStats.

Import AttendanceStats.

(* ================================================================== *)
(** ** main.verify_face, from the gallery lookup to the response *)
(* ================================================================== *)

Module VerifyFace.

Import FaceMatcher.

Definition HTTPException_500 : exn := PyExc "HTTPException 500".

(** The parameters, after [self], of the two logging methods of
    [AttendanceLogger] as they are declared. *)
Definition log_checkin_parameters : list string :=
  ["student_id"; "student_name"; "class_name"; "confidence"; "location";
   "status"; "checkin_image_path"]%string.

Definition log_failed_recognition_parameters : list string :=
  ["confidence"; "location"; "checkin_image_path"]%string.

(** Binding the arguments of a call: [positional] arguments fill the first
    parameters, and every keyword must name one of the remaining ones;
    otherwise the call raises [TypeError] before the body runs. *)
Definition bind_arguments (parameters : list string) (positional : nat)
           (keywords : list string) : py unit :=
  if (positional <=? length parameters)%nat &&
     forallb (fun k => existsb (String.eqb k) (skipn positional parameters))
             keywords
  then Return tt
  else Raise AttendanceStats.TypeError.

Definition status_string (st : match_status) : string :=
  match st with
  | MATCH => "MATCH"
  | UNCERTAIN => "UNCERTAIN"
  | NO_MATCH => "NO_MATCH"
  end.

(** The JSON responses of the handler: HTTP status code, the "status"
    field, the similarity and the student id of "student_info". *)
Record json_response : Type := mk_response {
  status_code : nat;
  response_status : string;
  response_similarity : option npfloat;
  response_student_id : option string
}.

Section Handler.

(** Whether the database accepts the insert of a log row and the update of
    the check-in time; both methods catch every error of the driver and
    return a boolean. *)
Variable insert_ok : bool.
Variable update_ok : bool.

Definition log_checkin (positional : nat) (keywords : list string) : py bool :=
  _ <- bind_arguments log_checkin_parameters positional keywords ;;
  Return insert_ok.

Definition log_failed_recognition (positional : nat) (keywords : list string)
  : py bool :=
  _ <- bind_arguments log_failed_recognition_parameters positional keywords ;;
  Return insert_ok.

Definition update_checkin : py bool := Return update_ok.

(** [verify_face] once the embedding of the query is at hand; [students] is
    what [db.get_all_students()] returned.  Any exception that is not an
    [HTTPException] becomes an HTTP 500. *)
Definition verify_face_decision (matcher : FaceMatcher.t) (embedding : vec)
           (students : list student) : py json_response :=
  try_except
    (if (length students =? 0)%nat
     then Return (mk_response 200 "no_students" None None)
     else
       found <- find_best_match matcher embedding students ;;
       match found with
       | None => Return (mk_response 200 "NO_MATCH" None None)
       | Some m =>
           if status_eqb (bm_status m) NO_MATCH
           then
             _ <- log_failed_recognition 1 ["checkin_image"%string] ;;
             Return (mk_response 200 (status_string (bm_status m))
                                 (Some (bm_similarity m)) None)
           else
             _ <- log_checkin 4 ["location"; "status"; "checkin_image"]%string ;;
             _ <- (if status_eqb (bm_status m) MATCH
                   then update_checkin else Return true) ;;
             Return (mk_response 200 (status_string (bm_status m))
                                 (Some (bm_similarity m))
                                 (Some (bm_student_id m)))
       end)
    (fun _ => Raise HTTPException_500).

End Handler.

End VerifyFace.

Import VerifyFace.

(* ================================================================== *)
(** ** Vocabulary of the further properties *)
(* ================================================================== *)

Module Verdict.

Import FaceMatcher.

(** The order NO_MATCH < UNCERTAIN < MATCH of the three verdicts. *)
Definition status_rank (st : match_status) : nat :=
  match st with
  | NO_MATCH => 0
  | UNCERTAIN => 1
  | MATCH => 2
  end.

End Verdict.

Import Verdict.

(** Three samples of one vector and one opposite sample. *)
Definition majority_rows : list (list R) :=
  [[1; 0]; [1; 0]; [1; 0]; [-1; 0]]%R.

Definition majority_value : list R := [1; 0]%R.

(** Four records of one day: two recognised, one uncertain, one failed. *)
Definition day_records : list attendance_record :=
  [mk_record (Some "success"%string) (Some (Fin 0.8%R));
   mk_record (Some "uncertain"%string) (Some (Fin 0.5%R));
   mk_record (Some "success"%string) (Some (Fin 0.7%R));
   mk_record (Some "failed"%string) (Some (Fin 0.2%R))].

(* ================================================================== *)
(** * Properties *)
(* ================================================================== *)

Local Open Scope R_scope.

(** ** Scalars *)

Lemma Rltb_true (x y : R) : x < y -> Rltb x y = true.
Proof. intros H; unfold Rltb; destruct (Rlt_dec x y); [reflexivity | contradiction]. Qed.

Lemma Rltb_false (x y : R) : ~ x < y -> Rltb x y = false.
Proof. intros H; unfold Rltb; destruct (Rlt_dec x y); [contradiction | reflexivity]. Qed.

Lemma Reqb_true (x y : R) : x = y -> Reqb x y = true.
Proof. intros H; unfold Reqb; destruct (Req_dec_T x y); [reflexivity | contradiction]. Qed.

Lemma Reqb_false (x y : R) : x <> y -> Reqb x y = false.
Proof. intros H; unfold Reqb; destruct (Req_dec_T x y); [contradiction | reflexivity]. Qed.

(** Case analysis on scalars and on the decisions taken on reals. *)
Ltac np_dec :=
  unfold fgt, fge, fltb, fleb, ge_prop, Rltb, Rleb, Reqb in *;
  repeat match goal with
         | |- context [Rlt_dec ?x ?y] => destruct (Rlt_dec x y)
         | |- context [Rle_dec ?x ?y] => destruct (Rle_dec x y)
         | |- context [Req_dec_T ?x ?y] => destruct (Req_dec_T x y)
         | H : context [Rlt_dec ?x ?y] |- _ => destruct (Rlt_dec x y)
         | H : context [Rle_dec ?x ?y] |- _ => destruct (Rle_dec x y)
         | H : context [Req_dec_T ?x ?y] |- _ => destruct (Req_dec_T x y)
         end;
  try reflexivity; try discriminate; try tauto; try lra.

Lemma fge_spec (a b : npfloat) : fge a b = true <-> ge_prop a b.
Proof. destruct a, b; simpl; split; intros H; np_dec. Qed.

Lemma fgt_Fin (x y : R) : fgt (Fin x) (Fin y) = true <-> y < x.
Proof. simpl; split; intros H; np_dec. Qed.

Lemma fge_Fin (x y : R) : fge (Fin x) (Fin y) = true <-> y <= x.
Proof. simpl; split; intros H; np_dec. Qed.

(** Nothing that is beaten by [b] beats a value that beats [b]. *)
Lemma fgt_false_trans (a b c : npfloat) :
  fgt a b = false -> fgt c b = true -> fgt a c = false.
Proof. destruct a, b, c; simpl; intros H1 H2; np_dec. Qed.

Lemma fgt_false_ge_false (a b c : npfloat) :
  fgt a b = false -> fgt c b = true -> fge a c = false.
Proof. destruct a, b, c; simpl; intros H1 H2; np_dec. Qed.

Lemma fgt_irrefl (a : npfloat) : fgt a a = false.
Proof. destruct a; simpl; np_dec. Qed.

Lemma fgt_pos_of_ge (a b : npfloat) :
  fge a b = true -> fgt b (Fin 0) = true -> fgt a (Fin 0) = true.
Proof. destruct a, b; simpl; intros H1 H2; np_dec. Qed.

Lemma fge_zero_false (t : npfloat) : fgt t (Fin 0) = true -> fge (Fin 0) t = false.
Proof. destruct t; simpl; intros H; np_dec. Qed.

Lemma fadd_NaN_l (a : npfloat) : fadd NaN a = NaN.
Proof. destruct a; reflexivity. Qed.

Lemma fadd_NaN_r (a : npfloat) : fadd a NaN = NaN.
Proof. destruct a; reflexivity. Qed.

Lemma fmul_NaN_l (a : npfloat) : fmul NaN a = NaN.
Proof. destruct a; reflexivity. Qed.

Lemma fmul_NaN_r (a : npfloat) : fmul a NaN = NaN.
Proof. destruct a; reflexivity. Qed.

Lemma fdiv_Fin (x y : R) : y <> 0 -> fdiv (Fin x) (Fin y) = Fin (x / y).
Proof. intros H; simpl; rewrite Reqb_false by assumption; reflexivity. Qed.

Lemma fdiv_zero_zero : fdiv (Fin 0) (Fin 0) = NaN.
Proof. simpl; rewrite !Reqb_true by reflexivity; reflexivity. Qed.

Lemma fsqrt_Fin_sq (r : R) : 0 <= r -> fsqrt (Fin (r * r)) = Fin r.
Proof.
  intros H; simpl. rewrite Rltb_false by nra. now rewrite sqrt_square.
Qed.

Lemma fgt_Fin_false (x y : R) : x <= y -> fgt (Fin x) (Fin y) = false.
Proof. simpl; intros H; np_dec. Qed.

Lemma fge_Fin_false (x y : R) : x < y -> fge (Fin x) (Fin y) = false.
Proof. simpl; intros H; np_dec. Qed.

(** ** Vectors *)

Lemma length_vdiv (v : vec) (s : npfloat) : length (vdiv v s) = length v.
Proof. unfold vdiv; apply length_map. Qed.

Lemma length_l2_normalize (v : vec) : length (l2_normalize v) = length v.
Proof. apply length_vdiv. Qed.

Lemma np_dot_same_length (a b : vec) :
  length a = length b -> np_dot a b = Return (vdot a b).
Proof. intros H; unfold np_dot; rewrite H, Nat.eqb_refl; reflexivity. Qed.

Lemma np_dot_mismatch (a b : vec) :
  length a <> length b -> np_dot a b = Raise ValueError.
Proof.
  intros H; unfold np_dot. apply Nat.eqb_neq in H. rewrite H; reflexivity.
Qed.

(** Evaluates the norm of a concrete vector whose norm is [r]. *)
Ltac vnorm r :=
  unfold np_linalg_norm, vdot, fsum;
  cbn [fold_left map combine fst snd fadd fmul];
  match goal with
  | |- fsqrt (Fin ?x) = _ => replace x with (r * r)%R by lra
  end;
  apply fsqrt_Fin_sq; lra.

(** ** FaceMatcher *)

Section Matcher.

Import FaceMatcher.

Variable self : FaceMatcher.t.

Lemma cosine_similarity_body_same_length (a b : vec) :
  length a = length b ->
  cosine_similarity_body a b = Return (vdot (l2_normalize a) (l2_normalize b)).
Proof.
  intros H; unfold cosine_similarity_body.
  rewrite np_dot_same_length by (rewrite !length_vdiv; exact H). reflexivity.
Qed.

Lemma cosine_similarity_body_mismatch (a b : vec) :
  length a <> length b -> cosine_similarity_body a b = Raise ValueError.
Proof.
  intros H; unfold cosine_similarity_body.
  rewrite np_dot_mismatch by (rewrite !length_vdiv; exact H). reflexivity.
Qed.

Lemma cosine_similarity_same_length (a b : vec) :
  length a = length b ->
  cosine_similarity self a b = Return (vdot (l2_normalize a) (l2_normalize b)).
Proof.
  intros H; unfold cosine_similarity.
  rewrite cosine_similarity_body_same_length by exact H. reflexivity.
Qed.

Lemma cosine_similarity_on_failure (a b : vec) :
  raises (cosine_similarity_body a b) -> cosine_similarity self a b = Return (Fin 0).
Proof.
  intros [e He]; unfold cosine_similarity; rewrite He; reflexivity.
Qed.

Lemma cosine_similarity_returns (a b : vec) :
  returns (cosine_similarity self a b).
Proof.
  unfold cosine_similarity, returns.
  destruct (cosine_similarity_body a b) as [s | e]; simpl; eauto.
Qed.

Lemma cosine_similarity_value (a b : vec) :
  cosine_similarity self a b = Return (similarity_of self a b).
Proof.
  unfold similarity_of.
  destruct (cosine_similarity_returns a b) as [s Hs]; rewrite Hs; reflexivity.
Qed.

Lemma match_value (q r : vec) :
  match_ self q r =
  Return (status_of self (similarity_of self q r), similarity_of self q r).
Proof.
  unfold match_. rewrite cosine_similarity_value. reflexivity.
Qed.

End Matcher.

Lemma norm_e1 : np_linalg_norm e1 = Fin 1.
Proof. unfold e1; vnorm 1. Qed.

Lemma norm_v_020 : np_linalg_norm v_020 = Fin 5.
Proof. unfold v_020; vnorm 5. Qed.

Lemma norm_v_050 : np_linalg_norm v_050 = Fin 2.
Proof. unfold v_050; vnorm 2. Qed.

Lemma norm_v_065 : np_linalg_norm v_065 = Fin 20.
Proof. unfold v_065; vnorm 20. Qed.

Lemma norm_v_070 : np_linalg_norm v_070 = Fin 10.
Proof. unfold v_070; vnorm 10. Qed.

Lemma norm_v_070' : np_linalg_norm v_070' = Fin 10.
Proof. unfold v_070'; vnorm 10. Qed.

Lemma norm_v_antipodal : np_linalg_norm v_antipodal = Fin 1.
Proof. unfold v_antipodal; vnorm 1. Qed.

(** Evaluates the cosine of [e1] and a concrete vector of known norm. *)
Ltac cosine_with Hnorm :=
  intros; rewrite cosine_similarity_same_length by reflexivity;
  unfold l2_normalize; rewrite norm_e1, Hnorm;
  unfold e1, v_020, v_050, v_065, v_070, v_070', v_antipodal, vdiv;
  cbn [map]; rewrite !fdiv_Fin by lra;
  unfold vdot, fsum; cbn [fold_left map combine fst snd fadd fmul];
  do 2 f_equal; lra.

Lemma cosine_e1_v_020 self : FaceMatcher.cosine_similarity self e1 v_020 = Return (Fin 0.2).
Proof. cosine_with norm_v_020. Qed.

Lemma cosine_e1_v_050 self : FaceMatcher.cosine_similarity self e1 v_050 = Return (Fin 0.5).
Proof. cosine_with norm_v_050. Qed.

Lemma cosine_e1_v_065 self : FaceMatcher.cosine_similarity self e1 v_065 = Return (Fin 0.65).
Proof. cosine_with norm_v_065. Qed.

Lemma cosine_e1_v_070 self : FaceMatcher.cosine_similarity self e1 v_070 = Return (Fin 0.7).
Proof. cosine_with norm_v_070. Qed.

Lemma cosine_e1_v_070' self : FaceMatcher.cosine_similarity self e1 v_070' = Return (Fin 0.7).
Proof. cosine_with norm_v_070'. Qed.

Lemma cosine_e1_v_antipodal self :
  FaceMatcher.cosine_similarity self e1 v_antipodal = Return (Fin (-1)).
Proof. cosine_with norm_v_antipodal. Qed.

Lemma fgt_false_fge (a b : npfloat) :
  fgt a b = false -> isnan a = false -> isnan b = false -> fge b a = true.
Proof. destruct a, b; simpl; intros H Ha Hb; np_dec. Qed.

Lemma fgt_true_not_nan (a b : npfloat) : fgt a b = true -> isnan a = false.
Proof. destruct a, b; simpl; intros H; try reflexivity; discriminate. Qed.

Lemma fgt_trans (a b c : npfloat) :
  fgt a b = true -> fgt b c = true -> fgt a c = true.
Proof. destruct a, b, c; simpl; intros H1 H2; np_dec. Qed.

Lemma fgt_asym (a b : npfloat) : fgt a b = true -> fgt b a = false.
Proof. destruct a, b; simpl; intros H; np_dec. Qed.

Lemma fgt_true_ge_false (a b : npfloat) : fgt a b = true -> fge b a = false.
Proof. destruct a, b; simpl; intros H; np_dec. Qed.

Section MatcherClaims.

Import FaceMatcher.

(** C1.  [match] returns the score of [cosine_similarity] together with
    MATCH when the score is at least the match threshold, else UNCERTAIN when
    it is at least the uncertain threshold, else NO_MATCH; both bounds are
    inclusive.  With match = 0.6 and uncertain = 0.4, similarity 0.65 is
    MATCH, 0.5 is UNCERTAIN and 0.2 is NO_MATCH; a similarity of 0.5 is MATCH
    under a match threshold of 0.5 and UNCERTAIN under an uncertain threshold
    of 0.5. *)
Theorem match_tri_state :
  (forall (self : FaceMatcher.t) (q r : vec),
      exists s st,
        cosine_similarity self q r = Return s /\
        match_ self q r = Return (st, s) /\
        (st = MATCH <-> ge_prop s (threshold_match self)) /\
        (st = UNCERTAIN <->
           ~ ge_prop s (threshold_match self) /\
           ge_prop s (threshold_uncertain self)) /\
        (st = NO_MATCH <->
           ~ ge_prop s (threshold_match self) /\
           ~ ge_prop s (threshold_uncertain self)))
  /\ match_ scenario_matcher e1 v_065 = Return (MATCH, Fin 0.65)
  /\ match_ scenario_matcher e1 v_050 = Return (UNCERTAIN, Fin 0.5)
  /\ match_ scenario_matcher e1 v_020 = Return (NO_MATCH, Fin 0.2)
  /\ match_ (FaceMatcher.mk (Fin 0.5) (Fin 0.4)) e1 v_050 = Return (MATCH, Fin 0.5)
  /\ match_ (FaceMatcher.mk (Fin 0.6) (Fin 0.5)) e1 v_050 = Return (UNCERTAIN, Fin 0.5).
Proof.
  split.
  - intros self q r.
    exists (similarity_of self q r), (status_of self (similarity_of self q r)).
    split; [apply cosine_similarity_value |].
    split; [apply match_value |].
    unfold status_of.
    rewrite <- !fge_spec.
    destruct (fge (similarity_of self q r) (threshold_match self));
      destruct (fge (similarity_of self q r) (threshold_uncertain self));
      repeat split; intros; try discriminate; try reflexivity;
      try (intuition congruence).
  - unfold match_, scenario_matcher.
    rewrite cosine_e1_v_065, cosine_e1_v_050, cosine_e1_v_020.
    cbn [bind threshold_match threshold_uncertain].
    repeat split.
    + rewrite (proj2 (fge_Fin 0.65 0.6)) by lra. reflexivity.
    + rewrite (fge_Fin_false (x:=0.5) (y:=0.6)) by lra.
      rewrite (proj2 (fge_Fin 0.5 0.4)) by lra. reflexivity.
    + rewrite (fge_Fin_false (x:=0.2) (y:=0.6)) by lra.
      rewrite (fge_Fin_false (x:=0.2) (y:=0.4)) by lra. reflexivity.
    + rewrite cosine_e1_v_050. cbn [bind threshold_match threshold_uncertain].
      rewrite (proj2 (fge_Fin 0.5 0.5)) by lra. reflexivity.
    + rewrite cosine_e1_v_050. cbn [bind threshold_match threshold_uncertain].
      rewrite (fge_Fin_false (x:=0.5) (y:=0.6)) by lra.
      rewrite (proj2 (fge_Fin 0.5 0.5)) by lra. reflexivity.
Qed.

(** *** Zero-norm inputs *)

Lemma fadd_nonfinite (a x : npfloat) :
  isfinite a = false -> isfinite (fadd a x) = false.
Proof. destruct a, x; simpl; intros H; congruence. Qed.

Lemma fold_fadd_nonfinite (l : list npfloat) (a : npfloat) :
  isfinite a = false -> isfinite (fold_left fadd l a) = false.
Proof.
  revert a; induction l as [| x l IH]; intros a H; simpl; [exact H |].
  apply IH, fadd_nonfinite, H.
Qed.

Lemma fold_fadd_NaN (l : list npfloat) : fold_left fadd l NaN = NaN.
Proof.
  induction l as [| x l IH]; cbn [fold_left]; [reflexivity |].
  rewrite fadd_NaN_l; exact IH.
Qed.

(** A finite sum of squares dominates its start value, and equals it only
    when every entry is zero. *)
Lemma sum_squares_Fin (l : vec) (acc r : R) :
  fold_left fadd (map (fun p => fmul (fst p) (snd p)) (combine l l)) (Fin acc)
  = Fin r ->
  acc <= r /\ (r = acc -> Forall (fun x => x = Fin 0) l).
Proof.
  revert acc; induction l as [| x l IH]; intros acc H; simpl in H.
  - injection H as <-. split; [lra | constructor].
  - destruct x as [y | | |]; cbn [fst snd fmul fadd] in H;
      try (apply (f_equal isfinite) in H;
           rewrite fold_fadd_nonfinite in H by reflexivity; discriminate).
    apply IH in H as [Hle Hz]. split; [nra |].
    intros ->. assert (Hy : y = 0) by nra. subst y.
    constructor; [reflexivity | apply Hz; lra].
Qed.

Lemma zero_norm_zero_vector (v : vec) :
  np_linalg_norm v = Fin 0 -> Forall (fun x => x = Fin 0) v.
Proof.
  unfold np_linalg_norm, vdot, fsum. intros H.
  destruct (fold_left fadd _ _) as [s | | |] eqn:E; simpl in H; try discriminate.
  apply sum_squares_Fin in E as [Hle Hz].
  unfold Rltb in H. destruct (Rlt_dec s 0); [discriminate |].
  injection H as H. apply Hz. apply sqrt_eq_0 in H; lra.
Qed.

Lemma vdiv_zero_norm (v : vec) :
  np_linalg_norm v = Fin 0 -> Forall (fun x => x = NaN) (l2_normalize v).
Proof.
  intros H. pose proof (zero_norm_zero_vector v H) as Hz.
  unfold l2_normalize, vdiv. rewrite H. clear H.
  induction Hz as [| x l Hx _ IH]; cbn [map]; [constructor |].
  constructor; [| exact IH].
  subst x. apply fdiv_zero_zero.
Qed.

Lemma vdot_NaN_l (a b : vec) :
  Forall (fun x => x = NaN) a -> a <> [] -> length a = length b -> vdot a b = NaN.
Proof.
  intros Ha Hne Hlen. destruct a as [| x a]; [contradiction |].
  destruct b as [| y b]; [discriminate |].
  inversion Ha; subst. unfold vdot, fsum; cbn [combine map fold_left fst snd].
  rewrite fmul_NaN_l. cbn [fadd]. apply fold_fadd_NaN.
Qed.

Lemma vdot_NaN_r (a b : vec) :
  Forall (fun x => x = NaN) b -> a <> [] -> length a = length b -> vdot a b = NaN.
Proof.
  intros Hb Hne Hlen. destruct a as [| x a]; [contradiction |].
  destruct b as [| y b]; [discriminate |].
  inversion Hb; subst. unfold vdot, fsum; cbn [combine map fold_left fst snd].
  rewrite fmul_NaN_r, fadd_NaN_r. apply fold_fadd_NaN.
Qed.

(** With a zero-norm input of the same non-zero length as the other, the
    division by the norm gives NaN entries and the score is NaN. *)
Lemma cosine_similarity_zero_norm (self : FaceMatcher.t) (a b : vec) :
  length a = length b -> a <> [] ->
  np_linalg_norm a = Fin 0 \/ np_linalg_norm b = Fin 0 ->
  cosine_similarity self a b = Return NaN.
Proof.
  intros Hlen Hne Hz. rewrite cosine_similarity_same_length by exact Hlen.
  f_equal. destruct Hz as [Hz | Hz].
  - apply vdot_NaN_l.
    + apply vdiv_zero_norm, Hz.
    + destruct a; [contradiction | discriminate].
    + now rewrite !length_l2_normalize.
  - apply vdot_NaN_r.
    + apply vdiv_zero_norm, Hz.
    + destruct a; [contradiction | discriminate].
    + now rewrite !length_l2_normalize.
Qed.

Lemma norm_zero5 : np_linalg_norm zero5 = Fin 0.
Proof. unfold zero5; vnorm 0. Qed.

(** C5 (as the code has it).  [cosine_similarity] signals no error to its
    caller, whatever the inputs, a zero-norm vector included: it always
    returns a score.  When the lengths of the two vectors differ, the score
    returned is 0.0. *)
Theorem cosine_similarity_signals_no_error :
  forall (self : FaceMatcher.t) (a b : vec),
    (exists s, cosine_similarity self a b = Return s) /\
    (forall e, cosine_similarity self a b <> Raise e) /\
    (length a <> length b -> cosine_similarity self a b = Return (Fin 0)).
Proof.
  intros self a b.
  destruct (cosine_similarity_returns self a b) as [s Hs].
  split; [exists s; exact Hs |]. split.
  - intros e. rewrite Hs. discriminate.
  - intros H. apply cosine_similarity_on_failure.
    exists ValueError. apply cosine_similarity_body_mismatch, H.
Qed.

(** C5, the claim refuted: on a zero vector [cosine_similarity] returns NaN,
    and on a dimension mismatch 0.0; neither call raises
    [InvalidVectorError]. *)
Lemma cosine_similarity_zero_norm_no_error :
  np_linalg_norm zero5 = Fin 0 /\
  cosine_similarity scenario_matcher zero5 e1 = Return NaN /\
  cosine_similarity scenario_matcher zero5 e1 <> Raise (PyExc "InvalidVectorError") /\
  cosine_similarity scenario_matcher [Fin 1] e1 = Return (Fin 0) /\
  cosine_similarity scenario_matcher [Fin 1] e1 <> Raise (PyExc "InvalidVectorError").
Proof.
  assert (H1 : cosine_similarity scenario_matcher zero5 e1 = Return NaN).
  { apply cosine_similarity_zero_norm;
      [reflexivity | discriminate | left; apply norm_zero5]. }
  assert (H2 : cosine_similarity scenario_matcher [Fin 1] e1 = Return (Fin 0)).
  { apply cosine_similarity_on_failure. exists ValueError.
    apply cosine_similarity_body_mismatch. simpl; lia. }
  rewrite H1, H2. repeat split; try apply norm_zero5; discriminate.
Qed.

(** *** Failure of the computation *)

Lemma match_on_failure (self : FaceMatcher.t) (q r : vec) :
  raises (cosine_similarity_body q r) ->
  match_ self q r = Return (status_of self (Fin 0), Fin 0).
Proof.
  intros H. unfold match_. rewrite cosine_similarity_on_failure by exact H.
  reflexivity.
Qed.

(** C9 (as the code has it).  [cosine_similarity] never signals an error:
    whenever the computation in its [try] block fails (it does on every
    dimension mismatch) the score returned is 0.0, and [match] classifies
    the pair as NO_MATCH provided the uncertain threshold is strictly
    positive and the match threshold is not below it. *)
Theorem cosine_similarity_failure_is_no_match :
  forall (self : FaceMatcher.t) (q r : vec),
    raises (cosine_similarity_body q r) ->
    fgt (threshold_uncertain self) (Fin 0) = true ->
    fge (threshold_match self) (threshold_uncertain self) = true ->
    cosine_similarity self q r = Return (Fin 0) /\
    match_ self q r = Return (NO_MATCH, Fin 0) /\
    (forall a b : vec, returns (cosine_similarity self a b)) /\
    (forall a b : vec, length a <> length b -> raises (cosine_similarity_body a b)).
Proof.
  intros self q r Hfail Hu Hm.
  split; [apply cosine_similarity_on_failure, Hfail |].
  split.
  - rewrite match_on_failure by exact Hfail. unfold status_of.
    rewrite (fge_zero_false _ (fgt_pos_of_ge _ _ Hm Hu)).
    rewrite (fge_zero_false _ Hu). reflexivity.
  - split; [intros a b; apply cosine_similarity_returns |].
    intros a b H. exists ValueError. apply cosine_similarity_body_mismatch, H.
Qed.

Lemma cosine_similarity_failure_is_no_match_witness :
  raises (cosine_similarity_body [Fin 1] e1) /\
  fgt (threshold_uncertain scenario_matcher) (Fin 0) = true /\
  fge (threshold_match scenario_matcher) (threshold_uncertain scenario_matcher) = true /\
  match_ scenario_matcher [Fin 1] e1 = Return (NO_MATCH, Fin 0).
Proof.
  assert (H0 : raises (cosine_similarity_body [Fin 1] e1)).
  { exists ValueError. apply cosine_similarity_body_mismatch. simpl; lia. }
  assert (H1 : fgt (threshold_uncertain scenario_matcher) (Fin 0) = true).
  { apply fgt_Fin. lra. }
  assert (H2 : fge (threshold_match scenario_matcher)
                   (threshold_uncertain scenario_matcher) = true).
  { apply fge_Fin. lra. }
  repeat split; try assumption.
  exact (proj1 (proj2 (cosine_similarity_failure_is_no_match
                         scenario_matcher [Fin 1] e1 H0 H1 H2))).
Defined.

(** C9, the claim refuted at an uncertain threshold of zero, which is
    non-negative: the failed comparison scores 0.0 and is UNCERTAIN. *)
Lemma cosine_similarity_failure_uncertain_at_zero :
  raises (cosine_similarity_body [Fin 1] e1) /\
  fge (threshold_uncertain (FaceMatcher.mk (Fin 0.6) (Fin 0))) (Fin 0) = true /\
  match_ (FaceMatcher.mk (Fin 0.6) (Fin 0)) [Fin 1] e1 = Return (UNCERTAIN, Fin 0) /\
  match_ (FaceMatcher.mk (Fin 0.6) (Fin 0)) [Fin 1] e1 <> Return (NO_MATCH, Fin 0).
Proof.
  assert (H0 : raises (cosine_similarity_body [Fin 1] e1)).
  { exists ValueError. apply cosine_similarity_body_mismatch. simpl; lia. }
  rewrite match_on_failure by exact H0. unfold status_of.
  cbn [threshold_match threshold_uncertain].
  rewrite (fge_Fin_false (x:=0) (y:=0.6)) by lra.
  rewrite (proj2 (fge_Fin 0 0)) by lra.
  repeat split; try assumption; discriminate.
Qed.

(** *** The gallery scan *)

(** C4 (as the code has it).  On an empty gallery [find_best_match] returns
    [None]; it signals no error. *)
Theorem find_best_match_empty_gallery :
  forall (self : FaceMatcher.t) (q : vec),
    find_best_match self q [] = Return None.
Proof. intros self q. reflexivity. Qed.

(** C4, the claim refuted: the call on an empty gallery returns and does not
    raise [EmptyGalleryError]. *)
Lemma find_best_match_empty_no_error :
  find_best_match scenario_matcher e1 [] = Return None /\
  find_best_match scenario_matcher e1 [] <> Raise (PyExc "EmptyGalleryError").
Proof. split; [reflexivity | discriminate]. Qed.

Lemma scan_step_value (self : FaceMatcher.t) (q : vec) (st : scan_state) (c : student) :
  scan_step self q st c =
  Return (if fgt (score_of self q c) (best_score st)
          then mk_scan (Some (verdict_of self q c)) (score_of self q c)
                       (status_of self (score_of self q c))
          else st).
Proof.
  unfold scan_step. rewrite match_value. cbn [bind].
  fold (score_of self q c).
  destruct (fgt (score_of self q c) (best_score st)); reflexivity.
Qed.

(** What the loop leaves behind: either no candidate beat the score it
    started from, or the state holds the first candidate of maximal score. *)
Lemma scan_spec (self : FaceMatcher.t) (q : vec) (students : list student) :
  forall st : scan_state,
  exists st', scan self q students st = Return st' /\
    ((st' = st /\
      forall c, In c students -> fgt (score_of self q c) (best_score st) = false)
     \/
     (exists i c,
         nth_error students i = Some c /\
         st' = mk_scan (Some (verdict_of self q c)) (score_of self q c)
                       (status_of self (score_of self q c)) /\
         fgt (score_of self q c) (best_score st) = true /\
         (forall c', In c' students ->
                     fgt (score_of self q c') (score_of self q c) = false) /\
         (forall j c', (j < i)%nat -> nth_error students j = Some c' ->
                       fge (score_of self q c') (score_of self q c) = false))).
Proof.
  induction students as [| s rest IH]; intros st.
  - exists st. split; [reflexivity |]. left. split; [reflexivity |].
    intros c [].
  - cbn [scan]. rewrite scan_step_value. cbn [bind].
    destruct (fgt (score_of self q s) (best_score st)) eqn:Hs.
    + destruct (IH (mk_scan (Some (verdict_of self q s)) (score_of self q s)
                            (status_of self (score_of self q s))))
        as [st' [Hrun [[Heq Hall] | [i [c [Hnth [Heq [Hgt [Hmax Hfirst]]]]]]]]];
        cbn [best_score] in *.
      * exists st'. split; [exact Hrun |]. right. exists 0%nat, s.
        repeat split; try assumption.
        -- intros c' [<- | Hin]; [apply fgt_irrefl | apply Hall, Hin].
        -- intros j c' Hj. lia.
      * exists st'. split; [exact Hrun |]. right. exists (S i), c.
        repeat split; try assumption.
        -- eapply fgt_trans; eassumption.
        -- intros c' [<- | Hin]; [apply fgt_asym, Hgt | apply Hmax, Hin].
        -- intros [| j] c' Hj Hc'; cbn [nth_error] in Hc'.
           ++ injection Hc' as <-. apply fgt_true_ge_false, Hgt.
           ++ apply (Hfirst j); [lia | exact Hc'].
    + destruct (IH st)
        as [st' [Hrun [[Heq Hall] | [i [c [Hnth [Heq [Hgt [Hmax Hfirst]]]]]]]]].
      * exists st'. split; [exact Hrun |]. left. split; [exact Heq |].
        intros c' [<- | Hin]; [exact Hs | apply Hall, Hin].
      * exists st'. split; [exact Hrun |]. right. exists (S i), c.
        repeat split; try assumption.
        -- intros c' [<- | Hin]; [| apply Hmax, Hin].
           eapply fgt_false_trans; eassumption.
        -- intros [| j] c' Hj Hc'; cbn [nth_error] in Hc'.
           ++ injection Hc' as <-. eapply fgt_false_ge_false; eassumption.
           ++ apply (Hfirst j); [lia | exact Hc'].
Qed.

Lemma find_best_match_none (self : FaceMatcher.t) (q : vec) (students : list student) :
  (forall c, In c students -> fgt (score_of self q c) (Fin (-1)) = false) ->
  find_best_match self q students = Return None.
Proof.
  intros Hall. unfold find_best_match.
  destruct (scan_spec self q students scan_init)
    as [st' [Hrun [[Heq _] | [i [c [Hnth [_ [Hgt _]]]]]]]].
  - rewrite Hrun, Heq. reflexivity.
  - apply nth_error_In in Hnth. cbn [scan_init best_score] in Hgt.
    rewrite (Hall c Hnth) in Hgt. discriminate.
Qed.

Lemma find_best_match_some (self : FaceMatcher.t) (q : vec) (students : list student) :
  (exists c, In c students /\ fgt (score_of self q c) (Fin (-1)) = true) ->
  exists i c,
    nth_error students i = Some c /\
    find_best_match self q students = Return (Some (verdict_of self q c)) /\
    fgt (score_of self q c) (Fin (-1)) = true /\
    (forall c', In c' students ->
                fgt (score_of self q c') (score_of self q c) = false) /\
    (forall j c', (j < i)%nat -> nth_error students j = Some c' ->
                  fge (score_of self q c') (score_of self q c) = false).
Proof.
  intros [c0 [Hin0 Hgt0]]. unfold find_best_match.
  destruct (scan_spec self q students scan_init)
    as [st' [Hrun [[Heq Hall] | [i [c [Hnth [Heq [Hgt [Hmax Hfirst]]]]]]]]].
  - cbn [scan_init best_score] in Hall. rewrite (Hall c0 Hin0) in Hgt0.
    discriminate.
  - exists i, c. rewrite Hrun, Heq. cbn [bind best_match].
    cbn [scan_init best_score] in Hgt.
    repeat split; assumption.
Qed.

(** Only one position of a gallery holds a candidate that scores above -1,
    is beaten by nobody and is reached by no earlier candidate. *)
Lemma best_position_unique (self : FaceMatcher.t) (q : vec)
      (students : list student) (i i' : nat) (c c' : student) :
  nth_error students i = Some c ->
  nth_error students i' = Some c' ->
  fgt (score_of self q c) (Fin (-1)) = true ->
  fgt (score_of self q c') (Fin (-1)) = true ->
  (forall d, In d students ->
             fgt (score_of self q d) (score_of self q c) = false) ->
  (forall d, In d students ->
             fgt (score_of self q d) (score_of self q c') = false) ->
  (forall j d, (j < i)%nat -> nth_error students j = Some d ->
               fge (score_of self q d) (score_of self q c) = false) ->
  (forall j d, (j < i')%nat -> nth_error students j = Some d ->
               fge (score_of self q d) (score_of self q c') = false) ->
  i = i'.
Proof.
  intros Hi Hi' Hc Hc' Hmax Hmax' Hfirst Hfirst'.
  assert (Hcc' : fge (score_of self q c) (score_of self q c') = true).
  { apply fgt_false_fge.
    - apply Hmax. eapply nth_error_In; eassumption.
    - eapply fgt_true_not_nan; eassumption.
    - eapply fgt_true_not_nan; eassumption. }
  assert (Hc'c : fge (score_of self q c') (score_of self q c) = true).
  { apply fgt_false_fge.
    - apply Hmax'. eapply nth_error_In; eassumption.
    - eapply fgt_true_not_nan; eassumption.
    - eapply fgt_true_not_nan; eassumption. }
  destruct (Nat.lt_trichotomy i i') as [Hlt | [Heq | Hgt]]; [| exact Heq |].
  - rewrite (Hfirst' i c Hlt Hi) in Hcc'. discriminate.
  - rewrite (Hfirst i' c' Hgt Hi') in Hc'c. discriminate.
Qed.

Lemma score_of_student_050 self : score_of self e1 student_050 = Fin 0.5.
Proof. unfold score_of, similarity_of. cbn [embedding student_050].
       now rewrite cosine_e1_v_050. Qed.

Lemma score_of_student_070 self : score_of self e1 student_070 = Fin 0.7.
Proof. unfold score_of, similarity_of. cbn [embedding student_070].
       now rewrite cosine_e1_v_070. Qed.

Lemma score_of_student_070' self : score_of self e1 student_070' = Fin 0.7.
Proof. unfold score_of, similarity_of. cbn [embedding student_070'].
       now rewrite cosine_e1_v_070'. Qed.

Lemma score_of_student_020 self : score_of self e1 student_020 = Fin 0.2.
Proof. unfold score_of, similarity_of. cbn [embedding student_020].
       now rewrite cosine_e1_v_020. Qed.

Lemma score_of_student_antipodal self :
  score_of self e1 student_antipodal = Fin (-1).
Proof. unfold score_of, similarity_of. cbn [embedding student_antipodal].
       now rewrite cosine_e1_v_antipodal. Qed.

(** C2 (as the code has it).  Each step of the linear scan replaces the
    running best only on a strictly greater score.  For every gallery in
    which some candidate scores strictly above -1, the start value of the
    running best, [find_best_match] returns the dictionary of the
    best-scoring candidate: a candidate that itself scores above -1, that no
    candidate beats and that every earlier candidate fails to reach, with
    its score and the status of that score, whatever that status is.  No
    other position of the gallery holds such a candidate.  Candidates
    scoring 0.50, 0.70, 0.70 in scan order give the second one; a gallery of
    one candidate scoring 0.2 under thresholds 0.6 and 0.4 gives that
    candidate with NO_MATCH. *)
Theorem find_best_match_first_maximum :
  (forall (self : FaceMatcher.t) (q : vec) (st : scan_state) (c : student),
      scan_step self q st c =
      Return (if fgt (score_of self q c) (best_score st)
              then mk_scan (Some (verdict_of self q c)) (score_of self q c)
                           (status_of self (score_of self q c))
              else st))
  /\
  (forall (self : FaceMatcher.t) (q : vec) (students : list student),
      (exists c, In c students /\ fgt (score_of self q c) (Fin (-1)) = true) ->
      exists i c,
        nth_error students i = Some c /\
        find_best_match self q students =
          Return (Some (mk_best (student_id c) (name c) (class c)
                                (score_of self q c)
                                (status_of self (score_of self q c)))) /\
        fgt (score_of self q c) (Fin (-1)) = true /\
        (forall c', In c' students ->
                    fgt (score_of self q c') (score_of self q c) = false) /\
        (forall j c', (j < i)%nat -> nth_error students j = Some c' ->
                      fge (score_of self q c') (score_of self q c) = false) /\
        (forall i' c',
            nth_error students i' = Some c' ->
            fgt (score_of self q c') (Fin (-1)) = true ->
            (forall d, In d students ->
                       fgt (score_of self q d) (score_of self q c') = false) ->
            (forall j d, (j < i')%nat -> nth_error students j = Some d ->
                         fge (score_of self q d) (score_of self q c') = false) ->
            i' = i))
  /\ find_best_match scenario_matcher e1 gallery_tie =
       Return (Some (mk_best "s2" "Binh" "K50" (Fin 0.7) MATCH))
  /\ find_best_match scenario_matcher e1 [student_020] =
       Return (Some (mk_best "s4" "Dung" "K51" (Fin 0.2) NO_MATCH)).
Proof.
  split; [exact scan_step_value |].
  split.
  { intros self q students H.
    destruct (find_best_match_some self q students H)
      as [i [c [Hnth [Hres [Hgt [Hmax Hfirst]]]]]].
    exists i, c. repeat split; try assumption.
    intros i' c' Hnth' Hgt' Hmax' Hfirst'.
    exact (best_position_unique self q students Hnth' Hnth Hgt' Hgt
             Hmax' Hmax Hfirst' Hfirst). }
  unfold find_best_match, gallery_tie. cbn [scan].
  rewrite !scan_step_value. cbn [bind scan_init best_score].
  rewrite score_of_student_050.
  rewrite (proj2 (fgt_Fin 0.5 (-1))) by lra. cbn [bind best_score scan].
  rewrite !scan_step_value. cbn [bind best_score].
  rewrite score_of_student_070.
  rewrite (proj2 (fgt_Fin 0.7 0.5)) by lra. cbn [bind best_score scan].
  rewrite !scan_step_value. cbn [bind best_score].
  rewrite score_of_student_070'.
  rewrite (fgt_Fin_false (x:=0.7) (y:=0.7)) by lra. cbn [bind best_match].
  rewrite score_of_student_020.
  rewrite (proj2 (fgt_Fin 0.2 (-1))) by lra. cbn [bind best_match].
  unfold verdict_of, status_of, scenario_matcher.
  rewrite score_of_student_070, score_of_student_020.
  cbn [threshold_match threshold_uncertain].
  rewrite (proj2 (fge_Fin 0.7 0.6)) by lra.
  rewrite (fge_Fin_false (x:=0.2) (y:=0.6)) by lra.
  rewrite (fge_Fin_false (x:=0.2) (y:=0.4)) by lra.
  split; reflexivity.
Qed.

Lemma find_best_match_first_maximum_witness :
  (exists c, In c gallery_tie /\
             fgt (score_of scenario_matcher e1 c) (Fin (-1)) = true) /\
  (exists i c,
      nth_error gallery_tie i = Some c /\
      find_best_match scenario_matcher e1 gallery_tie =
        Return (Some (mk_best (student_id c) (name c) (class c)
                              (score_of scenario_matcher e1 c)
                              (status_of scenario_matcher
                                         (score_of scenario_matcher e1 c)))) /\
      fgt (score_of scenario_matcher e1 c) (Fin (-1)) = true).
Proof.
  assert (H : exists c, In c gallery_tie /\
                        fgt (score_of scenario_matcher e1 c) (Fin (-1)) = true).
  { exists student_050. split; [left; reflexivity |].
    rewrite score_of_student_050. apply fgt_Fin. lra. }
  split; [exact H |].
  destruct (proj1 (proj2 find_best_match_first_maximum)
                  scenario_matcher e1 gallery_tie H)
    as [i [c [Hnth [Hres [Hgt _]]]]].
  exists i, c. repeat split; assumption.
Defined.

(** C2, the claim refuted: a gallery of one candidate whose embedding is
    opposite to the query scores exactly -1, which is not strictly above the
    start value; the gallery is not empty and no candidate is returned. *)
Lemma find_best_match_antipodal_gallery :
  [student_antipodal] <> [] /\
  match_ scenario_matcher e1 (embedding student_antipodal) =
    Return (NO_MATCH, Fin (-1)) /\
  find_best_match scenario_matcher e1 [student_antipodal] = Return None.
Proof.
  split; [discriminate |]. split.
  - rewrite match_value. fold (score_of scenario_matcher e1 student_antipodal).
    rewrite score_of_student_antipodal. unfold status_of, scenario_matcher.
    cbn [threshold_match threshold_uncertain].
    rewrite (fge_Fin_false (x:=-1) (y:=0.6)) by lra.
    rewrite (fge_Fin_false (x:=-1) (y:=0.4)) by lra. reflexivity.
  - apply find_best_match_none. intros c [<- | []].
    rewrite score_of_student_antipodal. apply fgt_Fin_false. lra.
Qed.

End MatcherClaims.

(** ** Lists and arrays *)

Lemma map_nth_seq_id {A : Type} (l : list A) (d : A) :
  map (fun i => nth i l d) (seq 0 (length l)) = l.
Proof.
  induction l as [| x l IH]; [reflexivity |].
  cbn [length seq map nth]. f_equal.
  rewrite <- seq_shift, map_map. exact IH.
Qed.

Lemma nth_map_seq {A : Type} (g : nat -> A) (n j : nat) (d : A) :
  (j < n)%nat -> nth j (map g (seq 0 n)) d = g j.
Proof.
  intros H. rewrite (nth_indep _ d (g 0%nat)) by (now rewrite length_map, length_seq).
  rewrite map_nth. now rewrite seq_nth.
Qed.

Lemma map_py_slice_neg {A B : Type} (f : A -> B) (start k : nat) (l : list A) :
  map f (py_slice_neg start k l) = py_slice_neg start k (map f l).
Proof.
  unfold py_slice_neg. rewrite length_map, skipn_map, firstn_map. reflexivity.
Qed.

Lemma length_py_slice_neg {A : Type} (k : nat) (l : list A) :
  (0 < k)%nat -> length (py_slice_neg k k l) = (length l - k - k)%nat.
Proof.
  intros Hk. unfold py_slice_neg.
  destruct (Nat.eqb_spec k 0); [lia |].
  rewrite length_firstn, length_skipn. lia.
Qed.

Lemma py_slice_neg_firstn_skipn {A : Type} (k : nat) (l : list A) :
  (0 < k)%nat -> py_slice_neg k k l = firstn (length l - 2 * k) (skipn k l).
Proof.
  intros Hk. unfold py_slice_neg.
  destruct (Nat.eqb_spec k 0); [lia |]. f_equal. lia.
Qed.

Lemma np_array_equal_dimension (D : nat) (embeddings : list vec) :
  embeddings <> [] -> Forall (fun e => length e = D) embeddings ->
  np_array embeddings = Return (mk_array D embeddings).
Proof.
  intros Hne Hall. destruct embeddings as [| e rest]; [contradiction |].
  inversion Hall as [| ? ? He Hrest]; subst. cbn [np_array].
  replace (forallb _ rest) with true; [reflexivity |].
  symmetry. apply forallb_forall. intros r Hr. apply Nat.eqb_eq.
  rewrite Forall_forall in Hrest. now apply Hrest.
Qed.

Lemma length_np_insert (x : npfloat) (l : list npfloat) :
  length (np_insert x l) = S (length l).
Proof.
  induction l as [| y l IH]; [reflexivity |].
  cbn [np_insert]. destruct (np_lt x y); cbn [length]; [reflexivity | now rewrite IH].
Qed.

Lemma length_np_sort_1d (l : list npfloat) : length (np_sort_1d l) = length l.
Proof.
  induction l as [| x l IH]; [reflexivity |].
  cbn [np_sort_1d]. rewrite length_np_insert, IH. reflexivity.
Qed.

Lemma length_column (j : nat) (a : array2) : length (column j a) = length (rows a).
Proof. unfold column. apply length_map. Qed.

(** A column of the sorted and sliced array is the slice of the sorted
    column. *)
Lemma column_slice_sort (start k j : nat) (a : array2) :
  (j < ncols a)%nat ->
  column j (slice_rows start k (np_sort_axis0 a)) =
  py_slice_neg start k (np_sort_1d (column j a)).
Proof.
  intros Hj. unfold column at 1, slice_rows, np_sort_axis0. cbn [rows ncols].
  rewrite map_py_slice_neg, map_map. f_equal.
  etransitivity; [| apply (map_nth_seq_id (np_sort_1d (column j a)) NaN)].
  rewrite length_np_sort_1d, length_column.
  apply map_ext. intros i. rewrite nth_map_seq by exact Hj. reflexivity.
Qed.

(** ** Sums and means *)

Lemma fold_fadd_Fin (l : list R) (acc : R) :
  fold_left fadd (map Fin l) (Fin acc) = Fin (fold_left Rplus l acc).
Proof.
  revert acc; induction l as [| x l IH]; intros acc; [reflexivity |].
  cbn [map fold_left fadd]. apply IH.
Qed.

Lemma fold_Rplus_acc (l : list R) (acc : R) :
  fold_left Rplus l acc = acc + fold_left Rplus l 0.
Proof.
  revert acc; induction l as [| x l IH]; intros acc; cbn [fold_left]; [lra |].
  rewrite (IH (acc + x)), (IH (0 + x)). lra.
Qed.

Lemma fmean_empty : fmean [] = NaN.
Proof.
  unfold fmean, fsum. cbn [fold_left length INR]. apply fdiv_zero_zero.
Qed.

Lemma fdiv_one (x : npfloat) : fdiv x (Fin 1) = x.
Proof.
  destruct x as [r | | |]; cbn [fdiv]; try reflexivity.
  - rewrite Reqb_false by lra. f_equal. field.
  - rewrite Rltb_false by lra. reflexivity.
  - rewrite Rltb_false by lra. reflexivity.
Qed.

Lemma fsum_Fin (l : list R) : fsum (map Fin l) = Fin (Rsum l).
Proof. apply fold_fadd_Fin. Qed.

Lemma fmean_Fin (l : list R) :
  l <> [] -> fmean (map Fin l) = Fin (Rsum l / INR (length l)).
Proof.
  intros Hne. unfold fmean. rewrite fsum_Fin, length_map.
  apply fdiv_Fin. apply not_0_INR. destruct l; [contradiction | discriminate].
Qed.

Lemma Rsum_repeat (r : R) (k : nat) : Rsum (repeat r k) = INR k * r.
Proof.
  unfold Rsum. induction k as [| k IH]; [cbn; lra |].
  cbn [repeat fold_left]. rewrite fold_Rplus_acc, IH, S_INR. lra.
Qed.

Lemma fold_fadd_repeat_PInf (k : nat) : fold_left fadd (repeat PInf k) PInf = PInf.
Proof. induction k as [| k IH]; [reflexivity | exact IH]. Qed.

Lemma fold_fadd_repeat_NInf (k : nat) : fold_left fadd (repeat NInf k) NInf = NInf.
Proof. induction k as [| k IH]; [reflexivity | exact IH]. Qed.

(** The mean of [k] copies of a value is that value. *)
Lemma fmean_repeat (y : npfloat) (k : nat) :
  (0 < k)%nat -> fmean (repeat y k) = y.
Proof.
  intros Hk. assert (HINR : 0 < INR k) by (apply lt_0_INR; exact Hk).
  unfold fmean. rewrite repeat_length.
  destruct y as [r | | |].
  - replace (repeat (Fin r) k) with (map Fin (repeat r k))
      by (now rewrite map_repeat).
    rewrite fsum_Fin, Rsum_repeat, fdiv_Fin by lra. f_equal. field. lra.
  - destruct k as [| k]; [lia |]. unfold fsum. cbn [repeat fold_left fadd].
    rewrite fold_fadd_repeat_PInf. cbn [fdiv]. now rewrite Rltb_false by lra.
  - destruct k as [| k]; [lia |]. unfold fsum. cbn [repeat fold_left fadd].
    rewrite fold_fadd_repeat_NInf. cbn [fdiv]. now rewrite Rltb_false by lra.
  - destruct k as [| k]; [lia |]. unfold fsum. cbn [repeat fold_left fadd].
    rewrite fold_fadd_NaN. reflexivity.
Qed.

Lemma nth_map_Fin (j : nat) (r : list R) :
  (j < length r)%nat -> nth j (map Fin r) NaN = Fin (nth j r 0).
Proof.
  intros H. rewrite (nth_indep _ NaN (Fin 0)) by (now rewrite length_map).
  apply map_nth.
Qed.

Lemma column_Fin (D j : nat) (rs : list (list R)) :
  (j < D)%nat -> Forall (fun r => length r = D) rs ->
  column j (mk_array D (map (map Fin) rs)) = map Fin (column_R j rs).
Proof.
  intros Hj Hall. unfold column, column_R. cbn [rows]. rewrite !map_map.
  apply map_ext_in. intros r Hr. apply nth_map_Fin.
  rewrite Forall_forall in Hall. rewrite (Hall r Hr). exact Hj.
Qed.

Lemma np_mean_axis0_repeat (D k : nat) (x : vec) :
  length x = D -> (0 < k)%nat -> np_mean_axis0 (mk_array D (repeat x k)) = x.
Proof.
  intros Hx Hk. unfold np_mean_axis0, column. cbn [ncols rows].
  rewrite <- Hx. etransitivity; [| apply (map_nth_seq_id x NaN)].
  apply map_ext. intros j. rewrite map_repeat. now apply fmean_repeat.
Qed.

Section TrainerClaims.

Import MultiImageTrainer.

Lemma compute_average_embedding_equal_dimension (D : nat) (embeddings : list vec) :
  embeddings <> [] -> Forall (fun e => length e = D) embeddings ->
  compute_average_embedding embeddings =
  Return (Some (l2_normalize (np_mean_axis0 (mk_array D embeddings)))).
Proof.
  intros Hne Hall. unfold compute_average_embedding.
  destruct embeddings as [| e rest] eqn:E; [contradiction |].
  cbn [length Nat.eqb]. rewrite <- E in *.
  rewrite (np_array_equal_dimension Hne Hall). reflexivity.
Qed.

Lemma compute_average_embedding_returns (embeddings : list vec) :
  compute_average_embedding embeddings = Return None \/
  exists v, compute_average_embedding embeddings = Return (Some v).
Proof.
  unfold compute_average_embedding.
  destruct (length embeddings =? 0)%nat; [left; reflexivity |].
  destruct (np_array embeddings) as [a | e]; cbn [bind try_except];
    [right; eauto | left; reflexivity].
Qed.

(** C6 (as the code has it).  Called with an empty collection,
    [compute_average_embedding] returns [None] and signals no error; on every
    input it returns either [None] or one vector. *)
Theorem compute_average_embedding_empty :
  compute_average_embedding [] = Return None /\
  (forall embeddings : list vec,
      compute_average_embedding embeddings = Return None \/
      exists v, compute_average_embedding embeddings = Return (Some v)).
Proof. split; [reflexivity | exact compute_average_embedding_returns]. Qed.

(** C6, the claim refuted: the call on the empty list returns [None] and
    does not raise [EmptyInputError]. *)
Lemma compute_average_embedding_empty_no_error :
  compute_average_embedding [] = Return None /\
  compute_average_embedding [] <> Raise (PyExc "EmptyInputError").
Proof. split; [reflexivity | discriminate]. Qed.




(** *** filter_outliers *)

Lemma length_np_mean_axis0 (a : array2) : length (np_mean_axis0 a) = ncols a.
Proof. unfold np_mean_axis0. now rewrite length_map, length_seq. Qed.

Lemma length_centroid_of (D : nat) (embeddings : list vec) :
  length (centroid_of D embeddings) = D.
Proof.
  unfold centroid_of. now rewrite length_l2_normalize, length_np_mean_axis0.
Qed.

Lemma similarities_loop_equal_dimension (embeddings : list vec) (centroid : vec) :
  Forall (fun e => length e = length centroid) embeddings ->
  forall similarities,
    similarities_loop embeddings centroid similarities =
    Return (similarities ++ map (similarity_to centroid) embeddings).
Proof.
  induction 1 as [| e rest He _ IH]; intros sims; cbn [similarities_loop map].
  - now rewrite app_nil_r.
  - rewrite np_dot_same_length by (now rewrite length_vdiv).
    cbn [bind]. rewrite IH, <- app_assoc. reflexivity.
Qed.

Lemma filter_zip_map {A B : Type} (f : A -> B) (g : B -> bool) (l : list A) :
  map fst (filter (fun p => g (snd p)) (combine l (map f l))) =
  filter (fun e => g (f e)) l.
Proof.
  induction l as [| x l IH]; [reflexivity |].
  cbn [map combine filter snd]. destruct (g (f x)); cbn [map fst]; now rewrite IH.
Qed.

Lemma filter_outliers_small (embeddings : list vec) (threshold : npfloat) :
  (length embeddings <= 2)%nat ->
  filter_outliers embeddings threshold = Return embeddings.
Proof.
  intros H. unfold filter_outliers. apply Nat.leb_le in H. rewrite H. reflexivity.
Qed.

Lemma filter_outliers_large (D : nat) (embeddings : list vec) (threshold : npfloat) :
  Forall (fun e => length e = D) embeddings ->
  (2 < length embeddings)%nat ->
  filter_outliers embeddings threshold =
  Return (match kept_by D embeddings threshold with
          | [] => embeddings
          | _ :: _ => kept_by D embeddings threshold
          end).
Proof.
  intros Hall Hn. unfold filter_outliers.
  assert (Hne : embeddings <> []) by (destruct embeddings; [cbn in Hn; lia | discriminate]).
  apply Nat.leb_gt in Hn. rewrite Hn.
  rewrite (np_array_equal_dimension Hne Hall). cbn [bind].
  fold (l2_normalize (np_mean_axis0 (mk_array D embeddings))).
  fold (centroid_of D embeddings).
  rewrite similarities_loop_equal_dimension
    by (rewrite length_centroid_of; exact Hall).
  cbn [bind app].
  rewrite (filter_zip_map (similarity_to (centroid_of D embeddings))
                          (fun s => fge s threshold) embeddings).
  fold (kept_by D embeddings threshold).
  destruct (kept_by D embeddings threshold); reflexivity.
Qed.

(** Whatever the inputs, the result is the input list or a non-empty
    selection. *)
Lemma filter_outliers_nonempty (embeddings : list vec) (threshold : npfloat) :
  embeddings <> [] ->
  exists r, filter_outliers embeddings threshold = Return r /\ r <> [].
Proof.
  intros Hne. unfold filter_outliers.
  destruct (length embeddings <=? 2)%nat; [exists embeddings; now split |].
  destruct (np_array embeddings) as [a | e]; cbn [bind try_except];
    [| exists embeddings; now split].
  destruct (similarities_loop _ _ _) as [sims | e]; cbn [bind try_except];
    [| exists embeddings; now split].
  match goal with
  | |- context [length ?f =? 0] => destruct f as [| x f'] eqn:E
  end; cbn [length Nat.eqb].
  - exists embeddings; now split.
  - eexists; split; [reflexivity | discriminate].
Qed.

(** C3.  For a non-empty collection of embeddings of one dimension [D],
    [filter_outliers] returns the input unchanged when it has two members or
    fewer; otherwise it returns exactly the inputs whose L2-normalized form
    has cosine similarity at least the threshold to the centroid (the
    L2-normalized mean of the inputs), and the whole input when no input
    passes.  The result is never empty.  The default threshold is 0.3. *)
Theorem filter_outliers_keeps_close_to_centroid :
  forall (D : nat) (embeddings : list vec) (threshold : npfloat),
    embeddings <> [] ->
    Forall (fun e => length e = D) embeddings ->
    ((length embeddings <= 2)%nat ->
     filter_outliers embeddings threshold = Return embeddings) /\
    ((2 < length embeddings)%nat ->
     filter_outliers embeddings threshold =
     Return (match kept_by D embeddings threshold with
             | [] => embeddings
             | _ :: _ => kept_by D embeddings threshold
             end)) /\
    (exists r, filter_outliers embeddings threshold = Return r /\ r <> []) /\
    default_threshold = Fin 0.3.
Proof.
  intros D embeddings threshold Hne Hall.
  split; [apply filter_outliers_small |].
  split; [apply filter_outliers_large; exact Hall |].
  split; [apply filter_outliers_nonempty; exact Hne |].
  unfold default_threshold. f_equal; lra.
Qed.

Lemma filter_outliers_keeps_close_to_centroid_witness :
  [v_050; v_070; v_070'] <> [] /\
  Forall (fun e => length e = 5%nat) [v_050; v_070; v_070'] /\
  (exists r, filter_outliers [v_050; v_070; v_070'] default_threshold = Return r /\
             r <> []).
Proof.
  assert (Hne : [v_050; v_070; v_070'] <> []) by discriminate.
  assert (Hall : Forall (fun e => length e = 5%nat) [v_050; v_070; v_070'])
    by (repeat constructor).
  repeat split; try assumption.
  exact (proj1 (proj2 (proj2 (filter_outliers_keeps_close_to_centroid
                                default_threshold Hne Hall)))).
Defined.

(** *** compute_robust_embedding *)

Lemma np_lt_asym (x y : npfloat) : np_lt x y = true -> np_lt y x = false.
Proof.
  unfold np_lt. destruct x, y; cbn [fltb isnan negb orb andb]; intros H;
    try reflexivity; try discriminate; np_dec.
Qed.

Lemma np_lt_Fin (x y : R) : x < y -> np_lt (Fin x) (Fin y) = true.
Proof.
  intros H. unfold np_lt. cbn [fltb isnan andb]. now rewrite Rltb_true.
Qed.

Lemma Permutation_np_insert (x : npfloat) (l : list npfloat) :
  Permutation (x :: l) (np_insert x l).
Proof.
  induction l as [| y l IH]; [reflexivity |].
  cbn [np_insert]. destruct (np_lt x y); [reflexivity |].
  rewrite perm_swap. now constructor.
Qed.

Lemma Permutation_np_sort_1d (l : list npfloat) : Permutation l (np_sort_1d l).
Proof.
  induction l as [| x l IH]; [reflexivity |].
  cbn [np_sort_1d]. rewrite <- Permutation_np_insert. now constructor.
Qed.

Lemma HdRel_np_insert (y x : npfloat) (l : list npfloat) :
  HdRel np_ordered y l -> np_ordered y x -> HdRel np_ordered y (np_insert x l).
Proof.
  intros Hl Hx. destruct l as [| z l]; cbn [np_insert]; [now constructor |].
  destruct (np_lt x z); constructor; [exact Hx | now inversion Hl].
Qed.

Lemma Sorted_np_insert (x : npfloat) (l : list npfloat) :
  Sorted np_ordered l -> Sorted np_ordered (np_insert x l).
Proof.
  induction 1 as [| y l Hs IH Hhd]; cbn [np_insert]; [repeat constructor |].
  destruct (np_lt x y) eqn:E.
  - constructor; [now constructor |]. constructor. now apply np_lt_asym.
  - constructor; [exact IH |]. apply HdRel_np_insert; [exact Hhd | exact E].
Qed.

Lemma Sorted_np_sort_1d (l : list npfloat) : Sorted np_ordered (np_sort_1d l).
Proof.
  induction l as [| x l IH]; [constructor |]. now apply Sorted_np_insert.
Qed.

(** An ascending list of finite values is left as it is. *)
Lemma np_sort_1d_ascending (l : list R) :
  Sorted Rlt l -> np_sort_1d (map Fin l) = map Fin l.
Proof.
  induction 1 as [| x l Hs IH Hhd]; [reflexivity |].
  cbn [map np_sort_1d]. rewrite IH.
  destruct Hhd as [| y l Hxy]; [reflexivity |].
  cbn [map np_insert]. now rewrite np_lt_Fin.
Qed.

Lemma length_rows_np_sort_axis0 (a : array2) :
  length (rows (np_sort_axis0 a)) = length (rows a).
Proof. unfold np_sort_axis0. cbn [rows]. now rewrite length_map, length_seq. Qed.

Lemma n_remove_pos (n : nat) : (0 < n_remove n)%nat.
Proof. unfold n_remove. lia. Qed.

Lemma string_eqb_trimmed_mean_median : String.eqb "trimmed_mean" "median" = false.
Proof. reflexivity. Qed.

Lemma compute_robust_embedding_trimmed_mean (D : nat) (embeddings : list vec) :
  embeddings <> [] -> Forall (fun e => length e = D) embeddings ->
  compute_robust_embedding embeddings "trimmed_mean" =
  Return (Some (trimmed_mean_per_dimension (n_remove (length embeddings)) D
                                           embeddings)).
Proof.
  intros Hne Hall. unfold compute_robust_embedding.
  destruct embeddings as [| e rest] eqn:E; [contradiction |].
  cbn [length Nat.eqb]. rewrite <- E in *.
  replace (S (length rest)) with (length embeddings) by (now rewrite E).
  rewrite (np_array_equal_dimension Hne Hall).
  cbn [bind try_except]. rewrite string_eqb_trimmed_mean_median, String.eqb_refl.
  do 2 f_equal. unfold trimmed_mean_per_dimension, l2_normalize.
  set (k := n_remove (length embeddings)).
  assert (Hmean :
    np_mean_axis0 (slice_rows k k (np_sort_axis0 (mk_array D embeddings))) =
    map (fun j =>
           fmean (firstn (length embeddings - 2 * k)
                         (skipn k (np_sort_1d (map (fun e => nth j e NaN)
                                                   embeddings)))))
        (seq 0 D)).
  { unfold np_mean_axis0. cbn [ncols slice_rows np_sort_axis0].
    apply map_ext_in. intros j Hj. apply in_seq in Hj.
    change (mk_array D (py_slice_neg k k _))
      with (slice_rows k k (np_sort_axis0 (mk_array D embeddings))).
    rewrite column_slice_sort by (cbn [ncols]; lia).
    rewrite py_slice_neg_firstn_skipn by apply n_remove_pos.
    rewrite length_np_sort_1d, length_column. reflexivity. }
  rewrite Hmean. reflexivity.
Qed.

Lemma compute_robust_embedding_median (D : nat) (embeddings : list vec) :
  embeddings <> [] -> Forall (fun e => length e = D) embeddings ->
  compute_robust_embedding embeddings "median" =
  Return (Some (median_per_dimension D embeddings)).
Proof.
  intros Hne Hall. unfold compute_robust_embedding.
  destruct embeddings as [| e rest] eqn:E; [contradiction |].
  cbn [length Nat.eqb]. rewrite <- E in *.
  rewrite (np_array_equal_dimension Hne Hall). reflexivity.
Qed.

Lemma compute_robust_embedding_fallback (embeddings : list vec) (method : string) :
  method <> "median"%string -> method <> "trimmed_mean"%string ->
  compute_robust_embedding embeddings method =
  compute_average_embedding embeddings.
Proof.
  intros H1 H2. unfold compute_robust_embedding, compute_average_embedding.
  apply String.eqb_neq in H1, H2. rewrite H1, H2. reflexivity.
Qed.

Lemma n_remove_floor (n : nat) :
  (1 <= n_remove n)%nat /\
  ((n < 20)%nat -> n_remove n = 1%nat) /\
  ((10 <= n)%nat -> (10 * n_remove n <= n < 10 * n_remove n + 10)%nat).
Proof.
  unfold n_remove, int_tenth.
  pose proof (Nat.div_mod_eq n 10) as Hdiv.
  pose proof (Nat.mod_upper_bound n 10 ltac:(lia)) as Hmod.
  repeat split; lia.
Qed.

(** C8 (as the code has it).  An empty collection gives [None].  For a
    non-empty collection of [n] embeddings of one dimension, method
    'trimmed_mean' sorts the values of every dimension, drops the
    [max(1, floor(n / 10))] lowest and as many highest samples of that
    dimension, averages the remainder and L2-normalizes; the trim count is at
    least 1.  Method 'median' gives the element-wise median, normalized, and
    every other method gives what [compute_average_embedding] gives, the
    normalized plain mean. *)
Theorem compute_robust_embedding_methods :
  (forall method : string, compute_robust_embedding [] method = Return None) /\
  (forall (D : nat) (embeddings : list vec),
    embeddings <> [] ->
    Forall (fun e => length e = D) embeddings ->
    compute_robust_embedding embeddings "trimmed_mean" =
      Return (Some (trimmed_mean_per_dimension (n_remove (length embeddings)) D
                                               embeddings)) /\
    (forall n : nat,
        (1 <= n_remove n)%nat /\
        ((n < 20)%nat -> n_remove n = 1%nat) /\
        ((10 <= n)%nat -> (10 * n_remove n <= n < 10 * n_remove n + 10)%nat)) /\
    (forall l : list npfloat,
        Permutation l (np_sort_1d l) /\ Sorted np_ordered (np_sort_1d l)) /\
    compute_robust_embedding embeddings "median" =
      Return (Some (median_per_dimension D embeddings)) /\
    (forall method : string,
        method <> "median"%string -> method <> "trimmed_mean"%string ->
        compute_robust_embedding embeddings method =
        compute_average_embedding embeddings /\
        compute_robust_embedding embeddings method =
        Return (Some (l2_normalize (np_mean_axis0 (mk_array D embeddings)))))).
Proof.
  split; [reflexivity |].
  intros D embeddings Hne Hall.
  split; [now apply compute_robust_embedding_trimmed_mean |].
  split; [exact n_remove_floor |].
  split; [intros l; split;
          [apply Permutation_np_sort_1d | apply Sorted_np_sort_1d] |].
  split; [now apply compute_robust_embedding_median |].
  intros method H1 H2.
  rewrite compute_robust_embedding_fallback by assumption.
  split; [reflexivity |]. now apply compute_average_embedding_equal_dimension.
Qed.

Lemma compute_robust_embedding_methods_witness :
  [v_050; v_070; v_070'] <> [] /\
  Forall (fun e => length e = 5%nat) [v_050; v_070; v_070'] /\
  compute_robust_embedding [v_050; v_070; v_070'] "trimmed_mean" =
    Return (Some (trimmed_mean_per_dimension 1 5 [v_050; v_070; v_070'])).
Proof.
  assert (Hne : [v_050; v_070; v_070'] <> []) by discriminate.
  assert (Hall : Forall (fun e => length e = 5%nat) [v_050; v_070; v_070'])
    by (repeat constructor).
  repeat split; try assumption.
  exact (proj1 (proj2 compute_robust_embedding_methods _ _ Hne Hall)).
Defined.

Lemma samples11_ascending : Sorted Rlt samples11_values.
Proof. unfold samples11_values. repeat constructor; lra. Qed.

(** The trimmed mean of [samples11] when [k] samples are dropped on each
    side and the remaining values sum to [total], of absolute value [size]. *)
Lemma trimmed_mean_samples11 (k : nat) (total size : R) :
  Rsum (firstn (11 - 2 * k) (skipn k samples11_values)) = total ->
  firstn (11 - 2 * k) (skipn k samples11_values) <> [] ->
  0 < size -> total * total = size * size ->
  trimmed_mean_per_dimension k 1 samples11 = [Fin (total / size)].
Proof.
  intros Hsum Hne Hsize Hsq. unfold trimmed_mean_per_dimension.
  cbn [seq map].
  change (map (fun e => nth 0 e NaN) samples11) with (map Fin samples11_values).
  change (length samples11) with 11%nat.
  rewrite np_sort_1d_ascending by apply samples11_ascending.
  rewrite skipn_map, firstn_map, fmean_Fin by exact Hne.
  rewrite Hsum.
  set (m := total / INR (length (firstn (11 - 2 * k) (skipn k samples11_values)))).
  assert (Hlen : 0 < INR (length (firstn (11 - 2 * k) (skipn k samples11_values)))).
  { apply lt_0_INR. destruct (firstn _ _); [contradiction | cbn; lia]. }
  set (c := INR (length (firstn (11 - 2 * k) (skipn k samples11_values)))) in *.
  assert (Hnorm : np_linalg_norm [Fin m] = Fin (size / c)).
  { unfold np_linalg_norm, vdot, fsum.
    cbn [fold_left map combine fst snd fadd fmul].
    replace (0 + m * m) with ((size / c) * (size / c)).
    - apply fsqrt_Fin_sq. apply Rlt_le, Rdiv_lt_0_compat; assumption.
    - unfold m. transitivity ((size * size) / (c * c)); [field; lra |].
      rewrite <- Hsq. field. lra. }
  unfold l2_normalize, vdiv. rewrite Hnorm. cbn [map].
  rewrite fdiv_Fin.
  - do 2 f_equal. unfold m. field. split; lra.
  - apply Rgt_not_eq, Rdiv_lt_0_compat; assumption.
Qed.

(** C8, the claim refuted: of eleven samples the code drops one per side
    ([max(1, int(1.1)) = 1]), not two ([ceil(1.1) = 2]), and the template it
    returns differs from the one the ceiling would give. *)
Lemma compute_robust_embedding_trims_floor_not_ceiling :
  length samples11 = 11%nat /\
  ceil_tenth 11 = 2%nat /\
  n_remove 11 = 1%nat /\
  compute_robust_embedding samples11 "trimmed_mean" = Return (Some [Fin (-1)]) /\
  trimmed_mean_per_dimension (ceil_tenth 11) 1 samples11 = [Fin 1] /\
  compute_robust_embedding samples11 "trimmed_mean" <>
    Return (Some (trimmed_mean_per_dimension (ceil_tenth 11) 1 samples11)).
Proof.
  assert (Hcode : compute_robust_embedding samples11 "trimmed_mean" =
                  Return (Some [Fin (-1)])).
  { rewrite (@compute_robust_embedding_trimmed_mean 1 samples11);
      [| discriminate | repeat constructor].
    change (n_remove (length samples11)) with 1%nat.
    rewrite (@trimmed_mean_samples11 1 (-63) 63).
    - do 4 f_equal. lra.
    - unfold Rsum, samples11_values.
      cbn [Nat.mul Nat.sub Nat.add skipn firstn fold_left]. lra.
    - discriminate.
    - lra.
    - lra. }
  assert (Hceil : trimmed_mean_per_dimension (ceil_tenth 11) 1 samples11 = [Fin 1]).
  { change (ceil_tenth 11) with 2%nat.
    rewrite (@trimmed_mean_samples11 2 28 28).
    - do 2 f_equal. lra.
    - unfold Rsum, samples11_values.
      cbn [Nat.mul Nat.sub Nat.add skipn firstn fold_left]. lra.
    - discriminate.
    - lra.
    - lra. }
  rewrite Hcode, Hceil. repeat split.
  intros H. injection H as H. lra.
Qed.

Lemma fdiv_NaN_l (s : npfloat) : fdiv NaN s = NaN.
Proof. destruct s; reflexivity. Qed.

Lemma l2_normalize_all_NaN (D : nat) : l2_normalize (repeat NaN D) = repeat NaN D.
Proof.
  unfold l2_normalize, vdiv. rewrite map_repeat. now rewrite fdiv_NaN_l.
Qed.

Lemma map_const_seq {A : Type} (c : A) (start n : nat) :
  map (fun _ => c) (seq start n) = repeat c n.
Proof.
  revert start; induction n as [| n IH]; intros start; [reflexivity |].
  cbn [seq map repeat]. now rewrite IH.
Qed.

Lemma n_remove_small (n : nat) : (n < 3)%nat -> n_remove n = 1%nat.
Proof. intros H. apply (proj1 (proj2 (n_remove_floor n))). lia. Qed.

Lemma n_remove_leaves_samples (n : nat) : (3 <= n)%nat -> (0 < n - 2 * n_remove n)%nat.
Proof.
  intros H. unfold n_remove, int_tenth.
  pose proof (Nat.div_mod_eq n 10) as Hdiv.
  pose proof (Nat.mod_upper_bound n 10 ltac:(lia)) as Hmod. lia.
Qed.

(** C10.  With method 'trimmed_mean' a collection of one or two embeddings
    of one dimension [D] loses every sample to the trim of one per side: the
    trimmed array has no rows, and the call returns, instead of [None], a
    vector of [D] NaN.  From three embeddings on, the trim leaves at least
    one row. *)
Theorem trimmed_mean_needs_three_samples :
  forall (D : nat) (embeddings : list vec),
    embeddings <> [] ->
    Forall (fun e => length e = D) embeddings ->
    let k := n_remove (length embeddings) in
    let trimmed := slice_rows k k (np_sort_axis0 (mk_array D embeddings)) in
    ((length embeddings < 3)%nat ->
     k = 1%nat /\
     rows trimmed = [] /\
     compute_robust_embedding embeddings "trimmed_mean" =
       Return (Some (repeat NaN D))) /\
    ((3 <= length embeddings)%nat ->
     length (rows trimmed) = (length embeddings - 2 * k)%nat /\
     (0 < length embeddings - 2 * k)%nat).
Proof.
  intros D embeddings Hne Hall k trimmed.
  assert (Hlen : length (rows trimmed) = (length embeddings - 2 * k)%nat).
  { unfold trimmed, slice_rows. cbn [rows].
    rewrite length_py_slice_neg by apply n_remove_pos.
    rewrite length_rows_np_sort_axis0. cbn [rows]. lia. }
  split.
  - intros Hsmall.
    assert (Hk : k = 1%nat) by (apply n_remove_small; exact Hsmall).
    split; [exact Hk |]. split.
    + apply length_zero_iff_nil. rewrite Hlen, Hk. lia.
    + rewrite (compute_robust_embedding_trimmed_mean Hne Hall).
      fold k. rewrite Hk. unfold trimmed_mean_per_dimension.
      replace (length embeddings - 2 * 1)%nat with 0%nat by lia.
      cbn [firstn]. rewrite fmean_empty, map_const_seq.
      now rewrite l2_normalize_all_NaN.
  - intros Hlarge. split; [exact Hlen |].
    apply n_remove_leaves_samples, Hlarge.
Qed.

Lemma trimmed_mean_needs_three_samples_witness :
  [v_050; v_070] <> [] /\
  Forall (fun e => length e = 5%nat) [v_050; v_070] /\
  (length [v_050; v_070] < 3)%nat /\
  compute_robust_embedding [v_050; v_070] "trimmed_mean" =
    Return (Some (repeat NaN 5)).
Proof.
  assert (Hne : [v_050; v_070] <> []) by discriminate.
  assert (Hall : Forall (fun e => length e = 5%nat) [v_050; v_070])
    by (repeat constructor).
  assert (Hsmall : (length [v_050; v_070] < 3)%nat) by (cbn; lia).
  repeat split; try assumption.
  exact (proj2 (proj2 (proj1 (trimmed_mean_needs_three_samples Hne Hall) Hsmall))).
Defined.

End TrainerClaims.

(** ** The float product behind [int_tenth] *)

(** On machine floats, [int(n * 0.1)] is [n / 10] for every length below
    4096. *)
Lemma int_tenth_agrees_with_float_product : TenthCheck.agrees_upto 4096 = true.
Proof. vm_compute. reflexivity. Qed.

(* ================================================================== *)
(** * Further properties of the matching engine *)
(* ================================================================== *)

Section MatcherMore.

Import FaceMatcher.

Lemma fmul_comm (a b : npfloat) : fmul a b = fmul b a.
Proof.
  destruct a, b; cbn [fmul]; try reflexivity. f_equal. apply Rmult_comm.
Qed.

Lemma vdot_comm (a b : vec) : vdot a b = vdot b a.
Proof.
  unfold vdot. f_equal. revert b.
  induction a as [| x a IH]; intros [| y b]; try reflexivity.
  cbn [combine map fst snd]. now rewrite fmul_comm, IH.
Qed.

(** X1.  [cosine_similarity] is symmetric in its two arguments, for all
    inputs: equal scores on equal lengths, and 0.0 both ways on a length
    mismatch. *)
Theorem cosine_similarity_symmetric :
  forall (self : FaceMatcher.t) (a b : vec),
    cosine_similarity self a b = cosine_similarity self b a.
Proof.
  intros self a b. destruct (Nat.eq_dec (length a) (length b)) as [H | H].
  - rewrite (cosine_similarity_same_length self a b H).
    rewrite (cosine_similarity_same_length self b a (eq_sym H)).
    now rewrite vdot_comm.
  - rewrite (cosine_similarity_on_failure self a b),
            (cosine_similarity_on_failure self b a); [reflexivity | |].
    + exists ValueError. apply cosine_similarity_body_mismatch. congruence.
    + exists ValueError. apply cosine_similarity_body_mismatch. exact H.
Qed.

Lemma fge_trans (a b c : npfloat) :
  fge a b = true -> fge b c = true -> fge a c = true.
Proof. destruct a, b, c; simpl; intros H1 H2; np_dec. Qed.

Lemma status_of_monotone (self : FaceMatcher.t) (s1 s2 : npfloat) :
  fge s2 s1 = true ->
  (status_rank (status_of self s1) <= status_rank (status_of self s2))%nat.
Proof.
  intros H. unfold status_of.
  destruct (fge s1 (threshold_match self)) eqn:E1.
  - now rewrite (fge_trans _ _ _ H E1).
  - destruct (fge s1 (threshold_uncertain self)) eqn:E2.
    + rewrite (fge_trans _ _ _ H E2).
      destruct (fge s2 (threshold_match self)); cbn; lia.
    + cbn. lia.
Qed.

(** X2.  The verdict of [match] is monotone in the score, whatever the two
    thresholds are: if one reference scores at least as high as another, its
    status is not a lower tier. *)
Theorem match_status_monotone :
  forall (self : FaceMatcher.t) (q r1 r2 : vec)
         (st1 st2 : match_status) (s1 s2 : npfloat),
    match_ self q r1 = Return (st1, s1) ->
    match_ self q r2 = Return (st2, s2) ->
    fge s2 s1 = true ->
    (status_rank st1 <= status_rank st2)%nat.
Proof.
  intros self q r1 r2 st1 st2 s1 s2 H1 H2 Hge.
  rewrite match_value in H1, H2.
  injection H1 as <- <-. injection H2 as <- <-.
  now apply status_of_monotone.
Qed.

Lemma match_scenario_v_050 :
  match_ scenario_matcher e1 v_050 = Return (UNCERTAIN, Fin 0.5).
Proof.
  unfold match_, scenario_matcher. rewrite cosine_e1_v_050.
  cbn [bind threshold_match threshold_uncertain].
  rewrite (fge_Fin_false (x:=0.5) (y:=0.6)) by lra.
  rewrite (proj2 (fge_Fin 0.5 0.4)) by lra. reflexivity.
Qed.

Lemma match_scenario_v_065 :
  match_ scenario_matcher e1 v_065 = Return (MATCH, Fin 0.65).
Proof.
  unfold match_, scenario_matcher. rewrite cosine_e1_v_065.
  cbn [bind threshold_match threshold_uncertain].
  rewrite (proj2 (fge_Fin 0.65 0.6)) by lra. reflexivity.
Qed.

Lemma match_status_monotone_witness :
  match_ scenario_matcher e1 v_050 = Return (UNCERTAIN, Fin 0.5) /\
  match_ scenario_matcher e1 v_065 = Return (MATCH, Fin 0.65) /\
  fge (Fin 0.65) (Fin 0.5) = true /\
  (status_rank UNCERTAIN <= status_rank MATCH)%nat.
Proof.
  assert (H3 : fge (Fin 0.65) (Fin 0.5) = true) by (apply fge_Fin; lra).
  repeat split; try assumption;
    try apply match_scenario_v_050; try apply match_scenario_v_065.
  exact (match_status_monotone scenario_matcher e1 v_050 v_065
           match_scenario_v_050 match_scenario_v_065 H3).
Defined.

(** The winner of a scan that adopts a candidate: it scores above the start
    value, nobody beats it and no earlier candidate reaches it. *)
Lemma find_best_match_winner (self : FaceMatcher.t) (q : vec)
      (students : list student) :
  (exists c, In c students /\ fgt (score_of self q c) (Fin (-1)) = true) ->
  exists c,
    In c students /\
    find_best_match self q students = Return (Some (verdict_of self q c)) /\
    fgt (score_of self q c) (Fin (-1)) = true /\
    (forall c', In c' students ->
                fgt (score_of self q c') (score_of self q c) = false).
Proof.
  intros [c0 [Hin0 Hgt0]]. unfold find_best_match.
  destruct (scan_spec self q students scan_init)
    as [st' [Hrun [[Heq Hall] | [i [c [Hnth [Heq [Hgt [Hmax Hfirst]]]]]]]]].
  - cbn [scan_init best_score] in Hall. rewrite (Hall c0 Hin0) in Hgt0.
    discriminate.
  - exists c. rewrite Hrun, Heq. cbn [bind best_match].
    repeat split; try assumption. eapply nth_error_In; eassumption.
Qed.

(** X3.  [find_best_match] returns [None] exactly when no candidate of the
    gallery scores strictly above -1 (an empty gallery, or only scores of -1
    or NaN); in every other case it returns a candidate. *)
Theorem find_best_match_none_iff :
  forall (self : FaceMatcher.t) (q : vec) (students : list student),
    find_best_match self q students = Return None <->
    (forall c, In c students -> fgt (score_of self q c) (Fin (-1)) = false).
Proof.
  intros self q students. split.
  - intros Hnone c Hin.
    destruct (fgt (score_of self q c) (Fin (-1))) eqn:E; [| reflexivity].
    destruct (find_best_match_winner self q students) as [w [_ [Hw _]]];
      [exists c; now split |].
    rewrite Hw in Hnone. discriminate.
  - apply find_best_match_none.
Qed.

Lemma fge_true_not_nan (a b : npfloat) : fge a b = true -> isnan a = false.
Proof. destruct a, b; simpl; intros H; try reflexivity; discriminate. Qed.

(** X4.  When the gallery has a candidate scoring above -1, the verdict
    [find_best_match] returns is MATCH exactly when some candidate of the
    gallery scores at least the match threshold. *)
Theorem find_best_match_is_match_iff :
  forall (self : FaceMatcher.t) (q : vec) (students : list student),
    (exists c, In c students /\ fgt (score_of self q c) (Fin (-1)) = true) ->
    ((exists r, find_best_match self q students = Return (Some r) /\
                bm_status r = MATCH) <->
     (exists c, In c students /\
                fge (score_of self q c) (threshold_match self) = true)).
Proof.
  intros self q students H.
  destruct (find_best_match_winner self q students H)
    as [w [Hin [Hw [Hgt Hmax]]]].
  split.
  - intros [r [Hr Hst]]. rewrite Hw in Hr. injection Hr as <-.
    exists w. split; [exact Hin |].
    unfold verdict_of in Hst. cbn [bm_status] in Hst. unfold status_of in Hst.
    destruct (fge (score_of self q w) (threshold_match self)); [reflexivity |].
    destruct (fge (score_of self q w) (threshold_uncertain self)); discriminate.
  - intros [c [Hc Hge]]. exists (verdict_of self q w). split; [exact Hw |].
    unfold verdict_of. cbn [bm_status]. unfold status_of.
    assert (Hwc : fge (score_of self q w) (score_of self q c) = true).
    { apply fgt_false_fge; [apply Hmax, Hc | |].
      - eapply fge_true_not_nan; eassumption.
      - eapply fgt_true_not_nan; eassumption. }
    now rewrite (fge_trans _ _ _ Hwc Hge).
Qed.

Lemma find_best_match_is_match_iff_witness :
  (exists c, In c gallery_tie /\
             fgt (score_of scenario_matcher e1 c) (Fin (-1)) = true) /\
  ((exists r, find_best_match scenario_matcher e1 gallery_tie = Return (Some r) /\
              bm_status r = MATCH) <->
   (exists c, In c gallery_tie /\
              fge (score_of scenario_matcher e1 c)
                  (threshold_match scenario_matcher) = true)).
Proof.
  assert (H : exists c, In c gallery_tie /\
                        fgt (score_of scenario_matcher e1 c) (Fin (-1)) = true).
  { exists student_050. split; [left; reflexivity |].
    rewrite score_of_student_050. apply fgt_Fin. lra. }
  split; [exact H |].
  exact (find_best_match_is_match_iff scenario_matcher e1 gallery_tie H).
Defined.

End MatcherMore.

(* ================================================================== *)
(** * Further properties of the aggregator *)
(* ================================================================== *)

Section TrainerMore.

Import MultiImageTrainer.

(** *** filter_outliers as a selection *)

Lemma similarities_loop_returns (embeddings : list vec) (centroid : vec) :
  forall similarities sims,
    similarities_loop embeddings centroid similarities = Return sims ->
    sims = similarities ++ map (similarity_to centroid) embeddings.
Proof.
  induction embeddings as [| e rest IH]; intros acc sims H;
    cbn [similarities_loop map] in *.
  - injection H as <-. now rewrite app_nil_r.
  - unfold np_dot in H.
    destruct (length (vdiv e (np_linalg_norm e)) =? length centroid)%nat;
      cbn [bind] in H; [| discriminate].
    apply IH in H. rewrite <- app_assoc in H. exact H.
Qed.

(** The result of [filter_outliers] is the input filtered by a test on the
    embeddings. *)
Lemma filter_outliers_filter_form :
  forall (embeddings : list vec) (threshold : npfloat),
    exists keep : vec -> bool,
      filter_outliers embeddings threshold = Return (filter keep embeddings).
Proof.
  intros embeddings threshold.
  assert (Hall : filter (fun _ : vec => true) embeddings = embeddings).
  { induction embeddings as [| e l IH]; [reflexivity | cbn; now rewrite IH]. }
  unfold filter_outliers.
  destruct (length embeddings <=? 2)%nat;
    [exists (fun _ => true); now rewrite Hall |].
  destruct (np_array embeddings) as [a | e]; cbn [bind try_except];
    [| exists (fun _ => true); now rewrite Hall].
  destruct (similarities_loop _ _ _) as [sims | e] eqn:E; cbn [bind try_except];
    [| exists (fun _ => true); now rewrite Hall].
  apply similarities_loop_returns in E. cbn [app] in E. subst sims.
  rewrite (filter_zip_map
             (similarity_to (vdiv (np_mean_axis0 a)
                                  (np_linalg_norm (np_mean_axis0 a))))
             (fun s => fge s threshold) embeddings).
  match goal with
  | |- context [length ?f =? 0] => destruct f as [| x f'] eqn:E'
  end; cbn [length Nat.eqb].
  - exists (fun _ => true). now rewrite Hall.
  - eexists. rewrite <- E'. reflexivity.
Qed.

(** X9.  Whatever the inputs (ragged ones included), [filter_outliers]
    returns the input list filtered by some test on the embeddings: a
    selection of the inputs in their order, in which no vector is altered or
    added and equal embeddings are kept or dropped together. *)
Theorem filter_outliers_is_selection :
  forall (embeddings : list vec) (threshold : npfloat),
    exists keep : vec -> bool,
      filter_outliers embeddings threshold = Return (filter keep embeddings).
Proof. exact filter_outliers_filter_form. Qed.

(** *** The median of a majority *)

Lemma np_insert_Fin (x : R) (l : list R) :
  exists l', np_insert (Fin x) (map Fin l) = map Fin l' /\ Permutation (x :: l) l'.
Proof.
  induction l as [| y t [t' [Ht' Hp]]].
  - exists [x]. split; [reflexivity | apply Permutation_refl].
  - cbn [map np_insert]. destruct (np_lt (Fin x) (Fin y)).
    + exists (x :: y :: t). split; [reflexivity | apply Permutation_refl].
    + exists (y :: t'). split; [cbn [map]; now rewrite Ht' |].
      rewrite perm_swap. now constructor.
Qed.

Lemma np_sort_1d_Fin (l : list R) :
  exists l', np_sort_1d (map Fin l) = map Fin l' /\ Permutation l l'.
Proof.
  induction l as [| x t [t' [Ht' Hp]]].
  - exists []. split; [reflexivity | constructor].
  - cbn [map np_sort_1d]. rewrite Ht'.
    destruct (np_insert_Fin x t') as [l' [Hl' Hp']].
    exists l'. split; [exact Hl' |].
    rewrite <- Hp'. now constructor.
Qed.

Lemma Sorted_Fin_Rle (l : list R) :
  Sorted np_ordered (map Fin l) -> StronglySorted Rle l.
Proof.
  intros H. apply Sorted_StronglySorted; [intros a b c; apply Rle_trans |].
  induction l as [| x t IH]; [constructor |].
  cbn [map] in H. inversion H as [| ? ? Hs Hhd]; subst.
  constructor; [now apply IH |].
  destruct t as [| y t]; constructor.
  cbn [map] in Hhd. inversion Hhd as [| ? ? Hxy]; subst.
  unfold np_ordered, np_lt in Hxy. cbn [fltb isnan andb] in Hxy.
  rewrite orb_false_r in Hxy. unfold Rltb in Hxy.
  destruct (Rlt_dec y x); [discriminate | lra].
Qed.

Lemma sorted_three_way (v : R) (s : list R) :
  StronglySorted Rle s ->
  s = filter (fun x => Rltb x v) s ++
      repeat v (count_occ Req_dec_T s v) ++
      filter (fun x => Rltb v x) s.
Proof.
  induction 1 as [| x t Hs IH Hall]; [reflexivity |].
  cbn [filter count_occ].
  destruct (Req_dec_T x v) as [-> | Hne].
  - rewrite !Rltb_false by lra.
    assert (Hlo : filter (fun x => Rltb x v) t = []).
    { clear IH Hs. induction Hall as [| y t Hy _ IHt]; [reflexivity |].
      cbn [filter]. rewrite Rltb_false by lra. exact IHt. }
    rewrite Hlo in *. cbn [app repeat]. f_equal. exact IH.
  - destruct (Rlt_dec x v) as [Hlt | Hnlt].
    + rewrite (Rltb_true Hlt), (Rltb_false (x:=v) (y:=x)) by lra.
      cbn [app]. f_equal. exact IH.
    + assert (Hgt : v < x) by lra.
      rewrite (Rltb_false Hnlt), (Rltb_true Hgt).
      assert (Hlo : filter (fun x => Rltb x v) t = []).
      { clear IH Hs. induction Hall as [| y t Hy _ IHt]; [reflexivity |].
        cbn [filter]. rewrite Rltb_false by lra. exact IHt. }
      assert (Hcnt : count_occ Req_dec_T t v = 0%nat).
      { clear IH Hs Hlo. induction Hall as [| y t Hy _ IHt]; [reflexivity |].
        cbn [count_occ]. destruct (Req_dec_T y v); [lra | exact IHt]. }
      rewrite Hlo, Hcnt in *. cbn [app repeat] in *. f_equal. exact IH.
Qed.

(** In a sorted list, the value held by more than half of the entries sits
    at every position between [n - k] and [k]. *)
Lemma sorted_majority_nth (v : R) (s : list R) (i : nat) :
  StronglySorted Rle s ->
  (length s - count_occ Req_dec_T s v <= i < count_occ Req_dec_T s v)%nat ->
  nth i s 0 = v.
Proof.
  intros Hs Hi. pose proof (sorted_three_way v Hs) as Hsplit.
  set (lo := filter (fun x => Rltb x v) s) in *.
  set (hi := filter (fun x => Rltb v x) s) in *.
  set (k := count_occ Req_dec_T s v) in *.
  assert (Hlen : length s = (length lo + (k + length hi))%nat).
  { rewrite Hsplit at 1. now rewrite !length_app, repeat_length. }
  rewrite Hsplit.
  rewrite app_nth2 by lia. rewrite app_nth1 by (rewrite repeat_length; lia).
  apply nth_repeat_lt. lia.
Qed.

Lemma existsb_isnan_Fin (l : list R) : existsb isnan (map Fin l) = false.
Proof. induction l as [| x l IH]; [reflexivity | exact IH]. Qed.

Lemma fmean_pair (v : R) : fmean [Fin v; Fin v] = Fin v.
Proof.
  unfold fmean, fsum. cbn [fold_left fadd length INR].
  rewrite fdiv_Fin by lra. f_equal. field.
Qed.

Lemma fmedian_majority (l : list R) (v : R) :
  (length l < 2 * count_occ Req_dec_T l v)%nat ->
  fmedian (map Fin l) = Fin v.
Proof.
  intros Hmaj. unfold fmedian. rewrite existsb_isnan_Fin, length_map.
  destruct (np_sort_1d_Fin l) as [s [Hs Hperm]].
  pose proof (Sorted_np_sort_1d (map Fin l)) as Hsorted.
  rewrite Hs in *. apply Sorted_Fin_Rle in Hsorted.
  assert (Hlen : length s = length l) by (symmetry; now apply Permutation_length).
  assert (Hcnt : count_occ Req_dec_T s v = count_occ Req_dec_T l v).
  { symmetry. now apply Permutation_count_occ. }
  pose proof (count_occ_bound Req_dec_T v l) as Hbound.
  pose proof (Nat.div_mod_eq (length l) 2) as Hdiv.
  pose proof (Nat.mod_upper_bound (length l) 2 ltac:(lia)) as Hmod.
  destruct (Nat.even (length l)) eqn:Heven.
  - apply Nat.even_spec in Heven. destruct Heven as [m Hm].
    assert (Hhalf : (length l / 2 = m)%nat).
    { rewrite Hm. rewrite Nat.mul_comm. apply Nat.div_mul. lia. }
    rewrite Hhalf.
    rewrite !nth_map_Fin by lia.
    rewrite !(@sorted_majority_nth v s) by (assumption || lia).
    apply fmean_pair.
  - rewrite nth_map_Fin by lia.
    assert (Hodd : (length l mod 2 = 1)%nat).
    { rewrite <- Nat.negb_odd in Heven. apply negb_false_iff in Heven.
      apply Nat.odd_spec in Heven. destruct Heven as [m Hm].
      rewrite Hm. rewrite Nat.add_comm, Nat.mul_comm.
      now rewrite Nat.Div0.mod_add. }
    rewrite (@sorted_majority_nth v s) by (assumption || lia).
    reflexivity.
Qed.

Lemma count_occ_column (j : nat) (rs : list (list R)) (v : list R) :
  (count_occ (list_eq_dec Req_dec_T) rs v <=
   count_occ Req_dec_T (column_R j rs) (nth j v 0%R))%nat.
Proof.
  induction rs as [| r rs IH]; [cbn; lia |].
  cbn [column_R map count_occ]. fold (column_R j rs).
  destruct (list_eq_dec Req_dec_T r v) as [-> | Hne].
  - destruct (Req_dec_T (nth j v 0) (nth j v 0)); [lia | contradiction].
  - destruct (Req_dec_T (nth j r 0) (nth j v 0)); lia.
Qed.

(** X10.  Method 'median' is robust to a minority of outliers: when more
    than half of the finite embeddings (of one dimension) are the same
    vector [v], the template is [v] normalized, whatever the other
    embeddings are. *)
Theorem compute_robust_embedding_median_majority :
  forall (D : nat) (rs : list (list R)) (v : list R),
    Forall (fun r => length r = D) rs ->
    (length rs < 2 * count_occ (list_eq_dec Req_dec_T) rs v)%nat ->
    compute_robust_embedding (map (map Fin) rs) "median" =
    Return (Some (l2_normalize (map Fin v))).
Proof.
  intros D rs v Hall Hmaj.
  assert (Hin : In v rs).
  { apply (count_occ_In (list_eq_dec Req_dec_T)). lia. }
  assert (Hv : length v = D) by (rewrite Forall_forall in Hall; now apply Hall).
  assert (Hne : map (map Fin) rs <> []) by (destruct rs; [contradiction | discriminate]).
  assert (Hall' : Forall (fun e => length e = D) (map (map Fin) rs)).
  { rewrite Forall_map. eapply Forall_impl; [| exact Hall].
    intros r Hr. now rewrite length_map. }
  rewrite (compute_robust_embedding_median Hne Hall').
  unfold median_per_dimension. do 3 f_equal.
  rewrite <- (map_nth_seq_id (map Fin v) NaN), length_map, Hv.
  apply map_ext_in. intros j Hj. apply in_seq in Hj.
  change (map (fun e => nth j e NaN) (map (map Fin) rs))
    with (column j (mk_array D (map (map Fin) rs))).
  rewrite column_Fin by (lia || exact Hall).
  rewrite nth_map_Fin by lia.
  apply fmedian_majority.
  pose proof (count_occ_column j rs v). unfold column_R at 1.
  rewrite length_map. lia.
Qed.

Lemma compute_robust_embedding_median_majority_witness :
  Forall (fun r => length r = 2%nat) majority_rows /\
  (length majority_rows <
   2 * count_occ (list_eq_dec Req_dec_T) majority_rows majority_value)%nat /\
  compute_robust_embedding (map (map Fin) majority_rows) "median" =
  Return (Some (l2_normalize (map Fin majority_value))).
Proof.
  assert (Hall : Forall (fun r => length r = 2%nat) majority_rows)
    by (repeat constructor).
  assert (Hmaj : (length majority_rows <
                  2 * count_occ (list_eq_dec Req_dec_T)
                                majority_rows majority_value)%nat).
  { unfold majority_rows, majority_value. cbn [count_occ length].
    destruct (list_eq_dec Req_dec_T [1; 0] [1; 0]) as [_ | Hne];
      [| contradiction].
    destruct (list_eq_dec Req_dec_T [-1; 0] [1; 0]); lia. }
  repeat split; try assumption.
  exact (compute_robust_embedding_median_majority majority_value Hall Hmaj).
Defined.

(** *** get_best_embedding_set *)

Lemma np_ordered_trans (a b c : npfloat) :
  np_ordered a b -> np_ordered b c -> np_ordered a c.
Proof.
  unfold np_ordered, np_lt.
  destruct a, b, c; cbn [fltb isnan negb andb orb]; intros H1 H2;
    try reflexivity; try discriminate; np_dec.
Qed.

Lemma Permutation_arg_insert (p : nat * npfloat) (l : list (nat * npfloat)) :
  Permutation (p :: l) (arg_insert p l).
Proof.
  induction l as [| q l IH]; [reflexivity |].
  cbn [arg_insert]. destruct (np_lt (snd q) (snd p)); [| reflexivity].
  rewrite perm_swap. now constructor.
Qed.

Lemma Permutation_arg_sort (l : list (nat * npfloat)) :
  Permutation l (arg_sort l).
Proof.
  induction l as [| p l IH]; [reflexivity |].
  cbn [arg_sort]. rewrite <- Permutation_arg_insert. now constructor.
Qed.

Lemma HdRel_arg_insert (q p : nat * npfloat) (l : list (nat * npfloat)) :
  HdRel key_ordered q l -> key_ordered q p ->
  HdRel key_ordered q (arg_insert p l).
Proof.
  intros Hl Hp. destruct l as [| z l]; cbn [arg_insert]; [now constructor |].
  destruct (np_lt (snd z) (snd p)); constructor; [now inversion Hl | exact Hp].
Qed.

Lemma Sorted_arg_insert (p : nat * npfloat) (l : list (nat * npfloat)) :
  Sorted key_ordered l -> Sorted key_ordered (arg_insert p l).
Proof.
  induction 1 as [| q l Hs IH Hhd]; cbn [arg_insert]; [repeat constructor |].
  destruct (np_lt (snd q) (snd p)) eqn:E.
  - constructor; [exact IH |]. apply HdRel_arg_insert; [exact Hhd |].
    unfold key_ordered, np_ordered. now apply np_lt_asym.
  - constructor; [now constructor |]. constructor. exact E.
Qed.

Lemma StronglySorted_arg_sort (l : list (nat * npfloat)) :
  StronglySorted key_ordered (arg_sort l).
Proof.
  apply Sorted_StronglySorted.
  - intros a b c. apply np_ordered_trans.
  - induction l as [| p l IH]; [constructor | now apply Sorted_arg_insert].
Qed.

Lemma StronglySorted_app_ordered {A : Type} (R : A -> A -> Prop) (l1 l2 : list A) :
  StronglySorted R (l1 ++ l2) ->
  forall x y, In x l1 -> In y l2 -> R x y.
Proof.
  induction l1 as [| a l1 IH]; intros Hs x y Hx Hy; [contradiction |].
  cbn [app] in Hs. apply StronglySorted_inv in Hs as [Hs Hall].
  destruct Hx as [<- | Hx].
  - rewrite Forall_forall in Hall. apply Hall, in_or_app. now right.
  - now apply IH.
Qed.

Lemma map_fst_combine_seq {A : Type} (l : list A) (start : nat) :
  map fst (combine (seq start (length l)) l) = seq start (length l).
Proof.
  revert start; induction l as [| x l IH]; intros start; [reflexivity |].
  cbn [length seq combine map fst]. now rewrite IH.
Qed.

Lemma in_combine_seq_nth {A : Type} (l : list A) (d : A) (start i : nat) (x : A) :
  In (i, x) (combine (seq start (length l)) l) ->
  (start <= i < start + length l)%nat /\ x = nth (i - start) l d.
Proof.
  revert start; induction l as [| y l IH]; intros start H; [contradiction |].
  cbn [length seq combine] in H. destruct H as [H | H].
  - injection H as <- <-. split; [cbn; lia |]. now rewrite Nat.sub_diag.
  - apply IH in H as [Hi Hx]. split; [cbn [length]; lia |].
    replace (i - start)%nat with (S (i - S start)) by lia. exact Hx.
Qed.

Lemma Permutation_np_argsort (d : list npfloat) :
  Permutation (seq 0 (length d)) (np_argsort d).
Proof.
  unfold np_argsort. rewrite <- (map_fst_combine_seq d 0) at 1.
  apply Permutation_map, Permutation_arg_sort.
Qed.

(** Of two positions, one in the first [k] of the argsort and one after
    them, the later one does not hold a smaller key. *)
Lemma np_argsort_split_ordered (d : list npfloat) (k i j : nat) :
  In i (firstn k (np_argsort d)) -> In j (skipn k (np_argsort d)) ->
  np_lt (nth j d NaN) (nth i d NaN) = false.
Proof.
  unfold np_argsort. rewrite firstn_map, skipn_map.
  intros Hi Hj. apply in_map_iff in Hi as [[i' x] [Ei Hi]].
  apply in_map_iff in Hj as [[j' y] [Ej Hj]]. cbn [fst] in Ei, Ej. subst i' j'.
  set (sorted := arg_sort (combine (seq 0 (length d)) d)) in *.
  assert (Hs : StronglySorted key_ordered
                 (firstn k sorted ++ skipn k sorted)).
  { rewrite firstn_skipn. apply StronglySorted_arg_sort. }
  pose proof (@StronglySorted_app_ordered _ _ _ _ Hs _ _ Hi Hj) as Hord.
  unfold key_ordered, np_ordered in Hord. cbn [snd] in Hord.
  assert (Hx : x = nth i d NaN).
  { assert (Hi' : In (i, x) sorted).
    { rewrite <- (firstn_skipn k sorted). apply in_or_app. now left. }
    apply (Permutation_in _ (Permutation_sym (Permutation_arg_sort _))) in Hi'.
    apply (in_combine_seq_nth d NaN) in Hi' as [_ Hi'].
    now rewrite Nat.sub_0_r in Hi'. }
  assert (Hy : y = nth j d NaN).
  { assert (Hj' : In (j, y) sorted).
    { rewrite <- (firstn_skipn k sorted). apply in_or_app. now right. }
    apply (Permutation_in _ (Permutation_sym (Permutation_arg_sort _))) in Hj'.
    apply (in_combine_seq_nth d NaN) in Hj' as [_ Hj'].
    now rewrite Nat.sub_0_r in Hj'. }
  now subst x y.
Qed.

Lemma np_sub_same_length (a b : vec) :
  length a = length b -> np_sub a b = Return (vsub a b).
Proof. intros H. unfold np_sub. rewrite H, Nat.eqb_refl. reflexivity. Qed.

Lemma distances_loop_equal_dimension (embeddings : list vec) (centroid : vec) :
  Forall (fun e => length e = length centroid) embeddings ->
  forall distances,
    distances_loop embeddings centroid distances =
    Return (distances ++ map (distance_to centroid) embeddings).
Proof.
  induction 1 as [| e rest He _ IH]; intros ds; cbn [distances_loop map].
  - now rewrite app_nil_r.
  - rewrite np_sub_same_length by (now rewrite length_vdiv).
    cbn [bind]. rewrite IH, <- app_assoc. reflexivity.
Qed.

Lemma gather_in_range (embeddings : list vec) (indices : list nat) :
  Forall (fun i => (i < length embeddings)%nat) indices ->
  gather embeddings indices = Return (map (fun i => nth i embeddings []) indices).
Proof.
  induction 1 as [| i rest Hi _ IH]; [reflexivity |].
  cbn [gather map]. unfold py_index.
  rewrite (nth_error_nth' embeddings [] Hi). cbn [bind]. rewrite IH. reflexivity.
Qed.

Lemma nth_map_default {A B : Type} (f : A -> B) (l : list A) (i : nat)
      (d : A) (d' : B) :
  (i < length l)%nat -> nth i (map f l) d' = f (nth i l d).
Proof.
  intros H. rewrite (nth_indep _ d' (f d)) by (now rewrite length_map).
  apply map_nth.
Qed.

(** X11.  For embeddings of one dimension and [0 <= n_best < n],
    [get_best_embedding_set] returns exactly [n_best] of the inputs, taken at
    distinct positions, and no input it leaves out is strictly closer to the
    centroid (Euclidean distance of the normalized input to the normalized
    mean) than one it keeps. *)
Theorem get_best_embedding_set_closest :
  forall (D : nat) (embeddings : list vec) (n_best : Z),
    Forall (fun e => length e = D) embeddings ->
    (0 <= n_best < Z.of_nat (length embeddings))%Z ->
    exists kept dropped : list nat,
      Permutation (kept ++ dropped) (seq 0 (length embeddings)) /\
      length kept = Z.to_nat n_best /\
      get_best_embedding_set embeddings n_best =
        Return (map (fun i => nth i embeddings []) kept) /\
      (forall i j, In i kept -> In j dropped ->
         np_lt (distance_to (centroid_of D embeddings) (nth j embeddings []))
               (distance_to (centroid_of D embeddings) (nth i embeddings []))
         = false).
Proof.
  intros D embeddings n_best Hall Hn.
  assert (Hne : embeddings <> []).
  { intros ->. cbn in Hn. lia. }
  set (c := centroid_of D embeddings).
  set (d := map (distance_to c) embeddings).
  set (k := Z.to_nat n_best).
  assert (Hd : length d = length embeddings) by (unfold d; apply length_map).
  assert (Hperm : Permutation (seq 0 (length embeddings)) (np_argsort d)).
  { rewrite <- Hd. apply Permutation_np_argsort. }
  assert (Hrange : forall i, In i (np_argsort d) -> (i < length embeddings)%nat).
  { intros i Hi. apply (Permutation_in _ (Permutation_sym Hperm)) in Hi.
    apply in_seq in Hi. lia. }
  exists (firstn k (np_argsort d)), (skipn k (np_argsort d)).
  split; [rewrite firstn_skipn; now apply Permutation_sym |].
  split.
  { rewrite length_firstn, <- (Permutation_length Hperm), length_seq.
    unfold k. lia. }
  split.
  - unfold get_best_embedding_set.
    replace (Z.of_nat (length embeddings) <=? n_best)%Z with false
      by (symmetry; apply Z.leb_gt; lia).
    rewrite (np_array_equal_dimension Hne Hall). cbn [bind].
    fold (l2_normalize (np_mean_axis0 (mk_array D embeddings))).
    fold (centroid_of D embeddings). fold c.
    rewrite distances_loop_equal_dimension
      by (unfold c; rewrite length_centroid_of; exact Hall).
    cbn [bind app]. fold d. unfold py_slice_to.
    replace (n_best <? 0)%Z with false by (symmetry; apply Z.ltb_ge; lia).
    fold k. rewrite gather_in_range; [reflexivity |].
    apply Forall_forall. intros i Hi. apply Hrange.
    rewrite <- (firstn_skipn k (np_argsort d)). apply in_or_app. now left.
  - intros i j Hi Hj.
    pose proof (np_argsort_split_ordered d k i j Hi Hj) as Hord.
    assert (Hi' : (i < length embeddings)%nat).
    { apply Hrange. rewrite <- (firstn_skipn k (np_argsort d)).
      apply in_or_app. now left. }
    assert (Hj' : (j < length embeddings)%nat).
    { apply Hrange. rewrite <- (firstn_skipn k (np_argsort d)).
      apply in_or_app. now right. }
    unfold d in Hord.
    rewrite (nth_map_default (distance_to c) embeddings [] NaN Hi') in Hord.
    rewrite (nth_map_default (distance_to c) embeddings [] NaN Hj') in Hord.
    exact Hord.
Qed.

Lemma get_best_embedding_set_closest_witness :
  Forall (fun e => length e = 5%nat) [v_050; v_070; v_070'] /\
  (0 <= 2 < Z.of_nat (length [v_050; v_070; v_070']))%Z /\
  (exists kept dropped : list nat,
      Permutation (kept ++ dropped) (seq 0 3) /\
      length kept = 2%nat /\
      get_best_embedding_set [v_050; v_070; v_070'] 2 =
        Return (map (fun i => nth i [v_050; v_070; v_070'] []) kept) /\
      (forall i j, In i kept -> In j dropped ->
         np_lt (distance_to (centroid_of 5 [v_050; v_070; v_070'])
                            (nth j [v_050; v_070; v_070'] []))
               (distance_to (centroid_of 5 [v_050; v_070; v_070'])
                            (nth i [v_050; v_070; v_070'] []))
         = false)).
Proof.
  assert (Hall : Forall (fun e => length e = 5%nat) [v_050; v_070; v_070'])
    by (repeat constructor).
  assert (Hn : (0 <= 2 < Z.of_nat (length [v_050; v_070; v_070']))%Z)
    by (cbn; lia).
  split; [exact Hall |]. split; [exact Hn |].
  exact (get_best_embedding_set_closest Hall Hn).
Defined.

Lemma distances_loop_length (embeddings : list vec) (centroid : vec) :
  forall distances ds,
    distances_loop embeddings centroid distances = Return ds ->
    length ds = (length distances + length embeddings)%nat.
Proof.
  induction embeddings as [| e rest IH]; intros acc ds H;
    cbn [distances_loop] in H.
  - injection H as <-. cbn; lia.
  - destruct (np_sub _ _) as [diff | err]; cbn [bind] in H; [| discriminate].
    apply IH in H. rewrite length_app in H. cbn [length] in *. lia.
Qed.

Lemma gather_returns (embeddings : list vec) (indices : list nat) :
  forall r, gather embeddings indices = Return r ->
            length r = length indices /\ (forall e, In e r -> In e embeddings).
Proof.
  induction indices as [| i rest IH]; intros r H; cbn [gather] in H.
  - injection H as <-. split; [reflexivity | intros e []].
  - unfold py_index in H. destruct (nth_error embeddings i) as [x |] eqn:E;
      cbn [bind] in H; [| discriminate].
    destruct (gather embeddings rest) as [r' | err]; cbn [bind] in H;
      [| discriminate].
    injection H as <-. destruct (IH r' eq_refl) as [Hlen Hin].
    split; [cbn [length]; now rewrite Hlen |].
    intros e [<- | He]; [eapply nth_error_In; eassumption | now apply Hin].
Qed.

Lemma length_py_slice_to {A : Type} (k : Z) (l : list A) :
  (length (py_slice_to k l) <= length l)%nat.
Proof.
  unfold py_slice_to. destruct (k <? 0)%Z; rewrite length_firstn; lia.
Qed.

Lemma length_np_argsort (d : list npfloat) : length (np_argsort d) = length d.
Proof.
  rewrite <- (Permutation_length (Permutation_np_argsort d)). apply length_seq.
Qed.

(** X12.  On every input, ragged lists and negative [n_best] included,
    [get_best_embedding_set] raises nothing and returns only vectors that
    are in the input, never more of them than the input has; when the input
    has at most [n_best] members it is returned as it is. *)
Theorem get_best_embedding_set_subset :
  forall (embeddings : list vec) (n_best : Z),
    exists r,
      get_best_embedding_set embeddings n_best = Return r /\
      (forall e, In e r -> In e embeddings) /\
      (length r <= length embeddings)%nat /\
      ((Z.of_nat (length embeddings) <= n_best)%Z -> r = embeddings).
Proof.
  intros embeddings n_best. unfold get_best_embedding_set.
  destruct (Z.of_nat (length embeddings) <=? n_best)%Z eqn:Hle.
  { exists embeddings. repeat split; auto. }
  apply Z.leb_gt in Hle.
  destruct (np_array embeddings) as [a | err]; cbn [bind try_except];
    [| exists embeddings; repeat split; auto; lia].
  destruct (distances_loop _ _ _) as [ds | err] eqn:Ed; cbn [bind try_except];
    [| exists embeddings; repeat split; auto; lia].
  destruct (gather _ _) as [r | err] eqn:Eg; cbn [bind try_except];
    [| exists embeddings; repeat split; auto; lia].
  exists r. apply gather_returns in Eg as [Hlen Hin].
  apply distances_loop_length in Ed. cbn [length] in Ed.
  split; [reflexivity |]. split; [exact Hin |]. split; [| lia].
  rewrite Hlen.
  etransitivity; [apply length_py_slice_to |].
  rewrite length_np_argsort. lia.
Qed.

End TrainerMore.

(* ================================================================== *)
(** * The enrollment handlers *)
(* ================================================================== *)

Section EnrollmentMore.

Import MultiImageTrainer.

Lemma filter_outliers_result (D : nat) (embeddings : list vec) (threshold : npfloat) :
  embeddings <> [] -> Forall (fun e => length e = D) embeddings ->
  exists r,
    filter_outliers embeddings threshold = Return r /\
    r <> [] /\ Forall (fun e => length e = D) r /\
    (forall e, In e r -> In e embeddings).
Proof.
  intros Hne Hall.
  destruct (filter_outliers_filter_form embeddings threshold) as [keep Hk].
  destruct (filter_outliers_nonempty threshold Hne) as [r [Hr Hrne]].
  exists r. split; [exact Hr |]. split; [exact Hrne |].
  rewrite Hk in Hr. injection Hr as <-. split.
  - apply Forall_forall. intros e He. apply filter_In in He as [He _].
    rewrite Forall_forall in Hall. now apply Hall.
  - intros e He. now apply filter_In in He as [He _].
Qed.

Lemma compute_average_embedding_dimension (D : nat) (embeddings : list vec) :
  embeddings <> [] -> Forall (fun e => length e = D) embeddings ->
  exists v, compute_average_embedding embeddings = Return (Some v) /\ length v = D.
Proof.
  intros Hne Hall. eexists. split.
  - apply (compute_average_embedding_equal_dimension Hne Hall).
  - now rewrite length_l2_normalize, length_np_mean_axis0.
Qed.

Lemma template_of_nonempty (D : nat) (r : list vec) :
  r <> [] -> Forall (fun e => length e = D) r ->
  exists v,
    (if (1 <? length r)%nat
     then compute_average_embedding r
     else e <- py_index r 0 ;; Return (Some e)) = Return (Some v) /\
    length v = D.
Proof.
  intros Hne Hall. destruct (1 <? length r)%nat.
  - now apply compute_average_embedding_dimension.
  - destruct r as [| e r]; [contradiction |].
    exists e. split; [reflexivity | now inversion Hall].
Qed.

(** X13.  Given at least one embedding, all of one dimension [D], both
    enrollment handlers hand the database a template of [D] entries: never
    [None], never an error. *)
Theorem enrollment_template_dimension :
  forall (D : nat) (embeddings : list vec),
    embeddings <> [] ->
    Forall (fun e => length e = D) embeddings ->
    (exists v, register_face_template embeddings = Return (Some v) /\
               length v = D) /\
    (exists v, update_student_photo_template embeddings = Return (Some v) /\
               length v = D).
Proof.
  intros D embeddings Hne Hall.
  assert (Hlen : (length embeddings =? 0)%nat = false).
  { destruct embeddings; [contradiction | reflexivity]. }
  destruct (filter_outliers_result default_threshold Hne Hall)
    as [r [Hr [Hrne [Hrall _]]]].
  split.
  - unfold register_face_template. rewrite Hlen.
    destruct (2 <? length embeddings)%nat.
    + rewrite Hr. cbn [bind]. now apply template_of_nonempty.
    + cbn [bind]. now apply template_of_nonempty.
  - unfold update_student_photo_template. rewrite Hlen.
    destruct (1 <? length embeddings)%nat eqn:E.
    + rewrite Hr. cbn [bind]. now apply compute_average_embedding_dimension.
    + destruct embeddings as [| e l]; [contradiction |].
      exists e. split; [reflexivity | now inversion Hall].
Qed.

Lemma enrollment_template_dimension_witness :
  [v_050; v_070; v_070'] <> [] /\
  Forall (fun e => length e = 5%nat) [v_050; v_070; v_070'] /\
  (exists v, register_face_template [v_050; v_070; v_070'] = Return (Some v) /\
             length v = 5%nat).
Proof.
  assert (Hne : [v_050; v_070; v_070'] <> []) by discriminate.
  assert (Hall : Forall (fun e => length e = 5%nat) [v_050; v_070; v_070'])
    by (repeat constructor).
  split; [exact Hne |]. split; [exact Hall |].
  exact (proj1 (enrollment_template_dimension Hne Hall)).
Defined.

Lemma vdiv_one (e : vec) : vdiv e (Fin 1) = e.
Proof.
  unfold vdiv. induction e as [| x e IH]; [reflexivity |].
  cbn [map]. now rewrite fdiv_one, IH.
Qed.

Lemma compute_average_embedding_single_unit (e : vec) :
  np_linalg_norm e = Fin 1 ->
  compute_average_embedding [e] = Return (Some e).
Proof.
  intros Hn.
  rewrite (@compute_average_embedding_equal_dimension (length e) [e]);
    [| discriminate | repeat constructor].
  change [e] with (repeat e 1).
  rewrite (@np_mean_axis0_repeat (length e) 1 e eq_refl) by lia.
  unfold l2_normalize. now rewrite Hn, vdiv_one.
Qed.

(** X14.  On embeddings of unit norm (what the embedder delivers) the two
    enrollment handlers compute the same template, whatever the number of
    embeddings: [register_face] keeps a lone survivor of the filter as it is
    where [update_student_photo] averages it, and both give that vector. *)
Theorem enrollment_handlers_agree :
  forall embeddings : list vec,
    (forall e, In e embeddings -> np_linalg_norm e = Fin 1) ->
    register_face_template embeddings = update_student_photo_template embeddings.
Proof.
  intros embeddings Hunit.
  unfold register_face_template, update_student_photo_template.
  (* none, one or two embeddings: the same steps in both handlers, the
     filter being the identity on two *)
  destruct embeddings as [| e1 [| e2 [| e3 rest]]]; try reflexivity.
  set (embs := e1 :: e2 :: e3 :: rest) in *.
  cbn [length Nat.eqb Nat.ltb Nat.leb].
  destruct (filter_outliers_filter_form embs default_threshold) as [keep Hk].
  destruct (@filter_outliers_nonempty embs default_threshold) as [r [Hr Hrne]];
    [discriminate |].
  rewrite Hr. cbn [bind].
  destruct r as [| x [| y r]]; [contradiction | | reflexivity].
  cbn [length Nat.ltb Nat.leb py_index nth_error bind].
  rewrite compute_average_embedding_single_unit; [reflexivity |].
  apply Hunit.
  assert (Heq : filter keep embs = [x]) by congruence.
  assert (Hx : In x (filter keep embs)) by (rewrite Heq; now left).
  now apply filter_In in Hx as [Hx _].
Qed.

Lemma enrollment_handlers_agree_witness :
  (forall e, In e [e1; e1; e1] -> np_linalg_norm e = Fin 1) /\
  register_face_template [e1; e1; e1] =
  update_student_photo_template [e1; e1; e1].
Proof.
  assert (H : forall e, In e [e1; e1; e1] -> np_linalg_norm e = Fin 1).
  { intros e [<- | [<- | [<- | []]]]; apply norm_e1. }
  split; [exact H |].
  exact (enrollment_handlers_agree [e1; e1; e1] H).
Defined.

End EnrollmentMore.

(* ================================================================== *)
(** * The attendance statistics *)
(* ================================================================== *)

Section StatisticsMore.

Lemma py_sum_present (l : list (option npfloat)) :
  Forall (fun c => c <> None) l ->
  forall acc, exists s, py_sum l acc = Return s.
Proof.
  induction 1 as [| c l Hc _ IH]; intros acc; cbn [py_sum]; [eauto |].
  destruct c as [x |]; [apply IH | contradiction].
Qed.

Lemma py_sum_missing (l : list (option npfloat)) :
  In None l -> forall acc, py_sum l acc = Raise TypeError.
Proof.
  induction l as [| c l IH]; intros Hin acc; [contradiction |].
  cbn [py_sum]. destruct c as [x |]; [| reflexivity].
  destruct Hin as [H | H]; [discriminate | now apply IH].
Qed.

Lemma py_truediv_count (a : npfloat) (n : nat) :
  (0 < n)%nat -> py_truediv a (Fin (INR n)) = Return (fdiv a (Fin (INR n))).
Proof.
  intros Hn. unfold py_truediv. rewrite Reqb_false; [reflexivity |].
  apply not_0_INR. lia.
Qed.

Lemma status_is_exclusive (a b : string) (r : attendance_record) :
  a <> b -> status_is a r = true -> status_is b r = false.
Proof.
  unfold status_is. intros Hab Ha. destruct (rec_status r) as [s |];
    [| reflexivity].
  apply String.eqb_eq in Ha. subst s. now apply String.eqb_neq.
Qed.

(** The three status counters count disjoint records. *)
Lemma status_counts_le (l : list attendance_record) :
  (length (filter (status_is "success") l) +
   length (filter (status_is "uncertain") l) +
   length (filter (status_is "failed") l) <= length l)%nat.
Proof.
  induction l as [| r l IH]; [cbn; lia |].
  cbn [filter length].
  destruct (status_is "success" r) eqn:E1.
  - rewrite (@status_is_exclusive "success" "uncertain" r) by (discriminate || exact E1).
    rewrite (@status_is_exclusive "success" "failed" r) by (discriminate || exact E1).
    cbn [length]. lia.
  - destruct (status_is "uncertain" r) eqn:E2.
    + rewrite (@status_is_exclusive "uncertain" "failed" r) by (discriminate || exact E2).
      cbn [length]. lia.
    + destruct (status_is "failed" r); cbn [length]; lia.
Qed.

Lemma status_counts_eq (l : list attendance_record) :
  Forall (fun r => status_is "success" r = true \/
                   status_is "uncertain" r = true \/
                   status_is "failed" r = true) l ->
  (length (filter (status_is "success") l) +
   length (filter (status_is "uncertain") l) +
   length (filter (status_is "failed") l) = length l)%nat.
Proof.
  induction 1 as [| r l Hr _ IH]; [reflexivity |].
  pose proof (status_counts_le (r :: l)) as Hle.
  cbn [filter length] in *.
  destruct (status_is "success" r), (status_is "uncertain" r),
    (status_is "failed" r); cbn [length] in *;
    try lia; destruct Hr as [Hr | [Hr | Hr]]; discriminate.
Qed.

(** X15.  When every record of the day carries a confidence,
    [get_statistics] reports the number of records as the total, the three
    status counters never add up to more than the total and add up to it
    exactly when every status is success, uncertain or failed, and the
    success rate lies between 0 and 100: it is 0 when no record is a
    success and 100 when all of them are. *)
Theorem get_statistics_counts :
  forall (py_round2 : npfloat -> npfloat)
         (today_records : list attendance_record),
    Forall (fun r => rec_confidence r <> None) today_records ->
    exists st,
      get_statistics py_round2 today_records = Return st /\
      total_attempts st = length today_records /\
      successful st = length (filter (status_is "success") today_records) /\
      (successful st + uncertain st + failed st <= total_attempts st)%nat /\
      (Forall (fun r => status_is "success" r = true \/
                        status_is "uncertain" r = true \/
                        status_is "failed" r = true) today_records ->
       (successful st + uncertain st + failed st = total_attempts st)%nat) /\
      exists rate,
        success_rate st = Fin rate /\ 0 <= rate <= 100 /\
        (successful st = 0%nat -> rate = 0) /\
        ((0 < total_attempts st)%nat ->
         successful st = total_attempts st -> rate = 100).
Proof.
  intros py_round2 records Hconf. unfold get_statistics.
  destruct records as [| r0 rest] eqn:E.
  - cbn [length filter Nat.ltb Nat.leb bind try_except].
    eexists. split; [reflexivity |]. cbn.
    repeat split; try lia; try (intros; lia).
    exists 0. repeat split; try lra. intros; lia.
  - rewrite <- E in *.
    assert (Hn : (0 < length records)%nat) by (rewrite E; cbn; lia).
    assert (Hconf' : Forall (fun c => c <> None) (map rec_confidence records)).
    { rewrite Forall_map. exact Hconf. }
    destruct (py_sum_present Hconf' (Fin 0)) as [s Hs].
    rewrite Hs. cbn [bind]. rewrite (py_truediv_count s Hn). cbn [bind].
    replace (0 <? length records)%nat with true
      by (symmetry; now apply Nat.ltb_lt).
    set (succ := length (filter (status_is "success") records)).
    rewrite (py_truediv_count (Fin (INR succ)) Hn). cbn [bind try_except].
    eexists. split; [reflexivity |].
    cbn [total_attempts successful uncertain failed success_rate].
    split; [reflexivity |]. split; [reflexivity |].
    split; [apply status_counts_le |].
    split; [apply status_counts_eq |].
    assert (HINR : 0 < INR (length records)) by (apply lt_0_INR; exact Hn).
    assert (Hle : INR succ <= INR (length records)).
    { apply le_INR. unfold succ. apply filter_length_le. }
    assert (Hge : 0 <= INR succ) by apply pos_INR.
    exists (INR succ / INR (length records) * 100).
    split; [rewrite fdiv_Fin by lra; reflexivity |].
    split; [| split].
    + split.
      * apply Rmult_le_pos; [| lra]. apply Rmult_le_pos; [exact Hge |].
        apply Rlt_le, Rinv_0_lt_compat, HINR.
      * assert (Hq : INR succ / INR (length records) <= 1).
        { apply (Rmult_le_reg_r (INR (length records))); [exact HINR |].
          unfold Rdiv. rewrite Rmult_assoc, Rinv_l by lra. lra. }
        lra.
    + intros ->. cbn [INR]. unfold Rdiv. ring.
    + intros _ ->. field. lra.
Qed.

Lemma get_statistics_counts_witness :
  Forall (fun r => rec_confidence r <> None) day_records /\
  (exists st,
      get_statistics (fun a => a) day_records = Return st /\
      total_attempts st = 4%nat /\
      (successful st + uncertain st + failed st <= total_attempts st)%nat).
Proof.
  assert (H : Forall (fun r => rec_confidence r <> None) day_records)
    by (repeat constructor; discriminate).
  split; [exact H |].
  destruct (get_statistics_counts (fun a => a) H) as [st [Hst [Ht [_ [Hle _]]]]].
  exists st. repeat split; assumption.
Defined.

(** X16.  One record without a confidence (a NULL column) makes the sum
    fail, and [get_statistics] then reports the all-zero statistics, a total
    of 0 included, however many records the day has. *)
Theorem get_statistics_missing_confidence :
  forall (py_round2 : npfloat -> npfloat)
         (today_records : list attendance_record),
    (exists r, In r today_records /\ rec_confidence r = None) ->
    get_statistics py_round2 today_records = Return zero_statistics.
Proof.
  intros py_round2 records [r [Hin Hnone]]. unfold get_statistics.
  destruct records as [| r0 rest] eqn:E; [contradiction |].
  rewrite <- E in *.
  rewrite py_sum_missing; [reflexivity |].
  rewrite <- Hnone. now apply in_map.
Qed.

Lemma get_statistics_missing_confidence_witness :
  (exists r, In r (mk_record (Some "success"%string) None :: day_records) /\
             rec_confidence r = None) /\
  get_statistics (fun a => a)
                 (mk_record (Some "success"%string) None :: day_records) =
  Return zero_statistics.
Proof.
  assert (H : exists r,
             In r (mk_record (Some "success"%string) None :: day_records) /\
             rec_confidence r = None).
  { eexists. split; [left; reflexivity | reflexivity]. }
  split; [exact H |].
  exact (get_statistics_missing_confidence (fun a => a) _ H).
Defined.

End StatisticsMore.

(* ================================================================== *)
(** * The verification handler *)
(* ================================================================== *)

Section VerifyFaceMore.

Import FaceMatcher.

Lemma log_failed_recognition_rejected (insert_ok : bool) :
  log_failed_recognition insert_ok 1 ["checkin_image"%string] =
  Raise AttendanceStats.TypeError.
Proof. reflexivity. Qed.

Lemma log_checkin_rejected (insert_ok : bool) :
  log_checkin insert_ok 4 ["location"; "status"; "checkin_image"]%string =
  Raise AttendanceStats.TypeError.
Proof. reflexivity. Qed.

(** X18.  Whenever the gallery holds a candidate that scores above -1, so
    that [find_best_match] returns one, [verify_face] ends in an HTTP 500,
    whatever the verdict and whatever the database does: both logging calls
    pass a keyword [checkin_image] that the logging methods do not declare
    (they declare [checkin_image_path]).  With a non-empty gallery in which
    no candidate scores above -1 the response is a 200 with status
    NO_MATCH. *)
Theorem verify_face_decision_outcome :
  forall (insert_ok update_ok : bool) (matcher : FaceMatcher.t)
         (embedding : vec) (students : list student),
    students <> [] ->
    ((exists c, In c students /\
                fgt (score_of matcher embedding c) (Fin (-1)) = true) ->
     verify_face_decision insert_ok update_ok matcher embedding students =
     Raise HTTPException_500) /\
    ((forall c, In c students ->
                fgt (score_of matcher embedding c) (Fin (-1)) = false) ->
     verify_face_decision insert_ok update_ok matcher embedding students =
     Return (mk_response 200 "NO_MATCH" None None)).
Proof.
  intros insert_ok update_ok matcher embedding students Hne.
  assert (Hlen : (length students =? 0)%nat = false).
  { destruct students; [contradiction | reflexivity]. }
  unfold verify_face_decision. rewrite Hlen. split.
  - intros H.
    destruct (find_best_match_winner matcher embedding students H)
      as [w [_ [Hw _]]].
    rewrite Hw. cbn [bind].
    destruct (status_eqb (bm_status (verdict_of matcher embedding w)) NO_MATCH).
    + rewrite log_failed_recognition_rejected. reflexivity.
    + rewrite log_checkin_rejected. reflexivity.
  - intros H. rewrite (find_best_match_none matcher embedding students H).
    reflexivity.
Qed.

Lemma verify_face_decision_outcome_witness :
  gallery_tie <> [] /\
  (exists c, In c gallery_tie /\
             fgt (score_of scenario_matcher e1 c) (Fin (-1)) = true) /\
  verify_face_decision true true scenario_matcher e1 gallery_tie =
  Raise HTTPException_500.
Proof.
  assert (Hne : gallery_tie <> []) by discriminate.
  assert (H : exists c, In c gallery_tie /\
                        fgt (score_of scenario_matcher e1 c) (Fin (-1)) = true).
  { exists student_050. split; [left; reflexivity |].
    rewrite score_of_student_050. apply fgt_Fin. lra. }
  split; [exact Hne |]. split; [exact H |].
  exact (proj1 (verify_face_decision_outcome true true scenario_matcher e1 Hne) H).
Defined.

End VerifyFaceMore.
